(** * A wellness-chat front end: session state machine, credit ledger and
      crisis keyword matcher of [app.py]

    The development embeds the Python script function by function.
    Python strings are sequences of Unicode code points, Python integers are
    unbounded ([Z]), [st.session_state] is a store whose keys may be absent,
    and a script run is a computation in a small monad that threads the
    store and a trace of outside effects, and that can stop early by
    [st.rerun()] or by a raised exception.  Calls that only draw on the page
    ([st.title], [st.header], [st.markdown], the two cards) read the store
    at most; their reads are kept, their output is not. *)

From Stdlib Require Import List ZArith NArith Bool String Ascii Lia.
Import ListNotations.

Set Implicit Arguments.

(** ** Python strings *)

Module PyStr.

(** A [str] is a sequence of code points. *)
Definition pystr := list N.

(** String literals of the source are ASCII; a literal is read off byte by
    byte. *)
Definition py (s : string) : pystr :=
  List.map N_of_ascii (list_ascii_of_string s).

(** The double quote, which occurs escaped inside [SYSTEM_PROMPT]. *)
Definition dquote : pystr := [34%N].

Definition is_ascii (c : N) : bool := (c <? 128)%N.

(** [str.lower] on an ASCII code point: [A-Z] move to [a-z]. *)
Definition ascii_lower (c : N) : N :=
  if ((65 <=? c) && (c <=? 90))%N then (c + 32)%N else c.

Section Lower.
(** Lower-casing of a non-ASCII code point follows the interpreter's
    Unicode tables, which are no part of the script.  It may yield
    several code points and may look at the neighbours (final sigma), so
    the table is given the text before and after the code point. *)
Variable unicode_lower : pystr -> N -> pystr -> pystr.

Definition lower_char (before : pystr) (c : N) (after : pystr) : pystr :=
  if is_ascii c then [ascii_lower c] else unicode_lower before c after.

Fixpoint lower_from (before rest : pystr) : pystr :=
  match rest with
  | [] => []
  | c :: after => lower_char before c after ++ lower_from (before ++ [c]) after
  end.

(** [text.lower()] *)
Definition lower (text : pystr) : pystr := lower_from [] text.
End Lower.

(** [s.startswith(k)] *)
Fixpoint startswith (k s : pystr) : bool :=
  match k, s with
  | [], _ => true
  | _ :: _, [] => false
  | a :: k', b :: s' => (a =? b)%N && startswith k' s'
  end.

(** [k in s]: [k] occurs in [s] as a contiguous run. *)
Fixpoint str_in (k s : pystr) : bool :=
  startswith k s ||
  match s with
  | [] => false
  | _ :: s' => str_in k s'
  end.

(** [str.isspace] of one code point, as the interpreter decides it. *)
Definition isspace (c : N) : bool :=
  (((9 <=? c) && (c <=? 13)) || ((28 <=? c) && (c <=? 32))
   || (c =? 133) || (c =? 160) || (c =? 5760)
   || ((8192 <=? c) && (c <=? 8202))
   || (c =? 8232) || (c =? 8233) || (c =? 8239) || (c =? 8287)
   || (c =? 12288))%N.

Fixpoint lstrip (s : pystr) : pystr :=
  match s with
  | [] => []
  | c :: s' => if isspace c then lstrip s' else s
  end.

Definition rstrip (s : pystr) : pystr := rev (lstrip (rev s)).

(** [s.strip()] *)
Definition strip (s : pystr) : pystr := rstrip (lstrip s).

(** Truth value of a string: non-empty. *)
Definition truthy (s : pystr) : bool :=
  match s with [] => false | _ :: _ => true end.

Definition eqb (a b : pystr) : bool :=
  if list_eq_dec N.eq_dec a b then true else false.

End PyStr.
Import PyStr.

Arguments py s%_string.

(** ** Configuration *)

Definition FREE_CHAT_LIMIT : Z := 5.

Definition CRISIS_KEYWORDS : list pystr :=
  [ py "suicide"; py "kill myself"; py "end my life"; py "self harm";
    py "self-harm"; py "harm others"; py "hurt myself"; py "abuse";
    py "danger"; py "die"; py "die by"; py "plan to kill"; py "plan to harm";
    py "thoughts of death" ].

(** ** Keyword matcher *)

Section Matcher.
Variable unicode_lower : pystr -> N -> pystr -> pystr.

Definition contains_crisis_keywords (text : pystr) : bool :=
  let text_lower := lower unicode_lower text in
  existsb (fun k => str_in k text_lower) CRISIS_KEYWORDS.
End Matcher.

(** ** Prompts *)

Definition SYSTEM_PROMPT : pystr :=
  py "You are a supportive, non-clinical wellness coach for everyday mental well-being in India. "
  ++ py "Do NOT answer questions unrelated to mental health or wellness, such as trivia, general knowledge, or unrelated topics. "
  ++ py "If asked about medical, legal, or diagnostic issues, do NOT provide advice. Instead, say: "
  ++ dquote ++ py "I'm not qualified to provide medical or legal advice. Please consult a professional for that." ++ dquote ++ py " "
  ++ py "If a user asks off-topic questions, gently redirect them back by saying something like: "
  ++ dquote ++ py "Let's focus on your mental well-being. How can I support you today?" ++ dquote ++ py " "
  ++ py "Always use empathetic, respectful, and simple language. "
  ++ py "Keep responses brief, supportive, and focused on psychoeducation, coping skills, or emotional support. "
  ++ py "If you detect any crisis or risk, follow crisis protocol immediately. ".

(** A [dict] with string keys, in insertion order. *)
Definition dict (V : Type) := list (pystr * V).

Fixpoint dict_get {V : Type} (d : dict V) (k : pystr) : option V :=
  match d with
  | [] => None
  | (k', v) :: d' => if PyStr.eqb k' k then Some v else dict_get d' k
  end.

Definition TOPIC_PROMPT_TEMPLATES : dict pystr :=
  [ (py "General",
      py "Write a warm, supportive welcome message for a mental health chatbot user. "
      ++ py "Include a gentle, uplifting quote about wellbeing. "
      ++ py "Then, invite the user empathetically to share what's on their mind. "
      ++ py "Finally, suggest a simple grounding exercise or an option to talk, phrased naturally and conversationally. "
      ++ py "Do NOT include bullet points, numbered lists, or headings. "
      ++ py "Keep the tone human, friendly, and easy to read with natural paragraph breaks.");
    (py "Relationship",
      py "Write a warm, empathetic welcome message about relationships. "
      ++ py "Start with a thoughtful quote on communication or boundaries. "
      ++ py "Invite the user to share recent experiences gently. "
      ++ py "Suggest a simple self-reflective question or exercise phrased naturally. "
      ++ py "Avoid bullet points or explicit headings. Use natural, human-like language and formatting.");
    (py "Anxiety",
      py "Write a gentle, hopeful welcome message about coping with anxiety. "
      ++ py "Include a short quote about anxiety and validation of feelings. "
      ++ py "Invite the user to share what's making them anxious. "
      ++ py "Offer a paced breathing exercise in a natural, friendly tone. "
      ++ py "Avoid lists or headings; write as a smooth, human conversation.");
    (py "Stress",
      py "Write a supportive welcome message about managing stress. "
      ++ py "Begin with a calming quote. "
      ++ py "Validate their feelings and ask what is causing their stress today. "
      ++ py "Offer a brief check-in or micro-action in friendly, conversational language. "
      ++ py "Do not use bullet points or numbered lists.");
    (py "Addiction",
      py "Write a compassionate welcome message addressing addiction challenges. "
      ++ py "Include an encouraging quote about small steps and progress. "
      ++ py "Gently invite the user to share recent hard moments. "
      ++ py "Offer a craving-management suggestion with consent phrased naturally. "
      ++ py "Keep the tone human and warm without lists or headings.") ].

(** The line [get_topic_welcome] falls back to. *)
Definition STATIC_WELCOME : pystr := py "Welcome! How can I support you today?".

(** The two strings [openrouter_chat_api] answers with when it has no
    reply. *)
Definition NO_KEY_REPLY : pystr := py "Error: No API key.".
Definition API_FAILURE_REPLY : pystr :=
  py "Sorry, something went wrong communicating with the chat service.".

(** ** Session state *)

Inductive Role : Type := system | user | assistant.

(** One entry of the conversation: [{"role": ..., "content": ...}]. *)
Record Message : Type := msg { role : Role; content : pystr }.

(** [st.session_state], restricted to the keys of the script.  [None] is an
    absent key; the value of [topic] is itself [None] or a topic name.  The
    key of the text area belongs to the widget: its value is the text that
    comes with a click on Send. *)
Record SessionState : Type := store {
  logged_in : option bool;
  username : option pystr;
  topic : option (option pystr);
  conversation : option (list Message);
  wallet_credits : option Z;
  chats_used : option Z;
  crisis_mode : option bool;
  topic_welcome_shown : option bool
}.

Definition empty_state : SessionState :=
  store None None None None None None None None.

Definition set_logged_in (v : option bool) (s : SessionState) :=
  store v (username s) (topic s) (conversation s) (wallet_credits s)
        (chats_used s) (crisis_mode s) (topic_welcome_shown s).
Definition set_username (v : option pystr) (s : SessionState) :=
  store (logged_in s) v (topic s) (conversation s) (wallet_credits s)
        (chats_used s) (crisis_mode s) (topic_welcome_shown s).
Definition set_topic (v : option (option pystr)) (s : SessionState) :=
  store (logged_in s) (username s) v (conversation s) (wallet_credits s)
        (chats_used s) (crisis_mode s) (topic_welcome_shown s).
Definition set_conversation (v : option (list Message)) (s : SessionState) :=
  store (logged_in s) (username s) (topic s) v (wallet_credits s)
        (chats_used s) (crisis_mode s) (topic_welcome_shown s).
Definition set_wallet_credits (v : option Z) (s : SessionState) :=
  store (logged_in s) (username s) (topic s) (conversation s) v
        (chats_used s) (crisis_mode s) (topic_welcome_shown s).
Definition set_chats_used (v : option Z) (s : SessionState) :=
  store (logged_in s) (username s) (topic s) (conversation s)
        (wallet_credits s) v (crisis_mode s) (topic_welcome_shown s).
Definition set_crisis_mode (v : option bool) (s : SessionState) :=
  store (logged_in s) (username s) (topic s) (conversation s)
        (wallet_credits s) (chats_used s) v (topic_welcome_shown s).
Definition set_topic_welcome_shown (v : option bool) (s : SessionState) :=
  store (logged_in s) (username s) (topic s) (conversation s)
        (wallet_credits s) (chats_used s) (crisis_mode s) v.

(** ** The outside world *)

(** What the HTTP exchange of one call yields: the text at
    [choices[0].message.content], or an exception (transport error, timeout,
    error status, undecodable or malformed body) with its message. *)
Inductive HttpOutcome : Type :=
| HttpContent (reply : pystr)
| HttpRaises (e : pystr).

(** [st.secrets]: with no secrets file every access, the membership test
    included, raises; with one, the key is there or not. *)
Inductive Secrets : Type :=
| SecretsMissing (e : pystr)
| SecretsFile (key : option pystr).

Record Env : Type := environment {
  (** the secrets of the deployment *)
  secrets : Secrets;
  (** [st.session_state.get("OPENROUTER_API_KEY")]; the script never sets it *)
  session_key : option pystr;
  (** the remote endpoint *)
  http : list Message -> HttpOutcome
}.

(** What the user does in one run of the script: at most one button is
    pressed, together with the text of the input next to it. *)
Inductive Action : Type :=
| NoClick
| ClickLogin (username_text : pystr)
| ClickTopic (idx : nat)
| ClickEndSession
| ClickWatchAd
| ClickLogout
| ClickSend (user_input : pystr).

(** Effects a run leaves outside the session state. *)
Inductive Effect : Type :=
| Warning (text : pystr)          (* st.warning *)
| Error (text : pystr)            (* st.error *)
| Success (text : pystr)          (* st.success *)
| Sleep (seconds : Z)             (* time.sleep *)
| ClientCall (messages : list Message)   (* openrouter_chat_api entered *)
| HttpPost (messages : list Message).    (* requests.post issued *)

Record World : Type := world { ss : SessionState; log : list Effect }.

(** ** The script monad *)

(** A statement ends normally with a value, stops the run with
    [st.rerun()], or raises an exception. *)
Inductive Res (A : Type) : Type :=
| Val (a : A)
| Rerun
| Raise (e : pystr).
Arguments Rerun {A}.
Arguments Raise {A} e.

Definition M (A : Type) : Type := World -> Res A * World.

Definition ret {A : Type} (a : A) : M A := fun w => (Val a, w).

Definition bind {A B : Type} (m : M A) (k : A -> M B) : M B :=
  fun w =>
    match m w with
    | (Val a, w') => k a w'
    | (Rerun, w') => (Rerun, w')
    | (Raise e, w') => (Raise e, w')
    end.

Declare Scope script_scope.
Delimit Scope script_scope with script.
Bind Scope script_scope with M.
Notation "x <- m ;; k" := (bind m (fun x => k))
  (at level 61, m at next level, right associativity) : script_scope.
Notation "m ;; k" := (bind m (fun _ => k))
  (at level 61, right associativity) : script_scope.
Open Scope script_scope.

Definition skip : M unit := ret tt.

(** [st.rerun()] *)
Definition st_rerun : M unit := fun w => (Rerun, w).

Definition raise {A : Type} (e : pystr) : M A := fun w => (Raise e, w).

(** [try: m  except Exception as e: handler e].  A rerun request is no
    [Exception] and passes through. *)
Definition try_except {A : Type} (m : M A) (handler : pystr -> M A) : M A :=
  fun w =>
    match m w with
    | (Raise e, w') => handler e w'
    | r => r
    end.

Definition emit (e : Effect) : M unit :=
  fun w => (Val tt, world (ss w) (log w ++ [e])).

(** [st.session_state.<key>], an [AttributeError] when the key is absent. *)
Definition attr {A : Type} (key : SessionState -> option A) (name : string) : M A :=
  fun w =>
    match key (ss w) with
    | Some v => (Val v, w)
    | None => (Raise (py "st.session_state has no attribute " ++ py name), w)
    end.

(** [st.session_state.<key> = v] *)
Definition assign {A : Type}
    (set : option A -> SessionState -> SessionState) (v : A) : M unit :=
  fun w => (Val tt, world (set (Some v) (ss w)) (log w)).

(** [del st.session_state[<key>]] *)
Definition del {A : Type}
    (set : option A -> SessionState -> SessionState) : M unit :=
  fun w => (Val tt, world (set None (ss w)) (log w)).

(** [<key> in st.session_state] *)
Definition has_key {A : Type} (key : SessionState -> option A) : M bool :=
  fun w => (Val (match key (ss w) with Some _ => true | None => false end), w).

(** [for x in l: body x] *)
Fixpoint for_each {A : Type} (l : list A) (body : A -> M unit) : M unit :=
  match l with
  | [] => skip
  | x :: l' => body x ;; for_each l' body
  end.

(** [enumerate(l)] *)
Definition enumerate {A : Type} (l : list A) : list (nat * A) :=
  combine (seq 0 (List.length l)) l.

(** A table that leaves every non-ASCII code point alone, for running the
    model on ASCII inputs. *)
Definition keep_unicode : pystr -> N -> pystr -> pystr := fun _ c _ => [c].

(** ** The script *)

Section Script.
Variable unicode_lower : pystr -> N -> pystr -> pystr.
Variable env : Env.
Variable action : Action.

(** Truth value of an optional string: [None] and the empty string are
    false. *)
Definition truthy_key (k : option pystr) : bool :=
  match k with
  | Some s => truthy s
  | None => false
  end.

(** The key from the secrets, else the one in the session state.  The
    test ["OPENROUTER_API_KEY" in st.secrets] raises when there is no
    secrets file. *)
Definition get_openrouter_api_key : M (option pystr) :=
  key <-
    match secrets env with
    | SecretsMissing e => raise e
    | SecretsFile key => ret key
    end ;;
  if negb (truthy_key key) then ret (session_key env) else ret key.

(** The body of the [try] block of [openrouter_chat_api]: the request and
    the extraction of the reply. *)
Definition requests_post (messages : list Message) : M pystr :=
  emit (HttpPost messages) ;;
  match http env messages with
  | HttpContent reply => ret reply
  | HttpRaises e => raise e
  end.

Definition openrouter_chat_api (messages : list Message) : M pystr :=
  emit (ClientCall messages) ;;
  api_key <- get_openrouter_api_key ;;
  if negb (truthy_key api_key) then
    emit (Error (py "OpenRouter API key not found. Please add it to your Streamlit secrets as OPENROUTER_API_KEY.")) ;;
    ret NO_KEY_REPLY
  else
    try_except (requests_post messages)
      (fun e =>
         emit (Error (py "Error communicating with OpenRouter API: " ++ e)) ;;
         ret API_FAILURE_REPLY).

(** [topic not in TOPIC_PROMPT_TEMPLATES] is a failed lookup; the handler
    catches what [openrouter_chat_api] raises. *)
Definition get_topic_welcome (topic_name : pystr) : M pystr :=
  match dict_get TOPIC_PROMPT_TEMPLATES topic_name with
  | None => ret STATIC_WELCOME
  | Some prompt =>
      let messages := [ msg system SYSTEM_PROMPT; msg user prompt ] in
      try_except
        (welcome_text <- openrouter_chat_api messages ;; ret welcome_text)
        (fun _ => ret STATIC_WELCOME)
  end.

(** [if "<key>" not in st.session_state: st.session_state.<key> = v] *)
Definition setdefault {A : Type} (key : SessionState -> option A)
    (set : option A -> SessionState -> SessionState) (v : A) : M unit :=
  present <- has_key key ;;
  if negb present then assign set v else skip.

Definition initialize_session_state : M unit :=
  setdefault logged_in set_logged_in false ;;
  setdefault username set_username [] ;;
  setdefault topic set_topic None ;;
  setdefault conversation set_conversation [] ;;
  setdefault wallet_credits set_wallet_credits FREE_CHAT_LIMIT ;;
  setdefault chats_used set_chats_used 0%Z ;;
  setdefault crisis_mode set_crisis_mode false ;;
  setdefault topic_welcome_shown set_topic_welcome_shown false.

(** The keys are deleted one by one where present; deleting an absent key
    of the model leaves it absent. *)
Definition reset_session : M unit :=
  del set_logged_in ;;
  del set_username ;;
  del set_topic ;;
  del set_conversation ;;
  del set_wallet_credits ;;
  del set_chats_used ;;
  del set_crisis_mode ;;
  del set_topic_welcome_shown.

Definition login_screen : M unit :=
  match action with
  | ClickLogin username_text =>
      if truthy (strip username_text) then
        assign set_username (strip username_text) ;;
        assign set_logged_in true ;;
        st_rerun
      else
        emit (Warning (py "Please enter a valid username."))
  | _ => skip
  end.

Definition topics : list pystr :=
  [ py "General"; py "Relationship"; py "Anxiety"; py "Stress"; py "Addiction" ].

(** [cols[idx].button(topic)] *)
Definition topic_button (idx : nat) : bool :=
  match action with
  | ClickTopic i => Nat.eqb i idx
  | _ => false
  end.

(** The loop over the five buttons; the header reads the username. *)
Definition topic_selection_screen : M unit :=
  _ <- attr username "username" ;;
  for_each (enumerate topics) (fun '(idx, topic_name) =>
    if topic_button idx then
      assign set_topic (Some topic_name) ;;
      assign set_conversation [ msg system SYSTEM_PROMPT ] ;;
      welcome_text <- get_topic_welcome topic_name ;;
      conv <- attr conversation "conversation" ;;
      assign set_conversation (conv ++ [ msg assistant welcome_text ]) ;;
      assign set_crisis_mode false ;;
      assign set_topic_welcome_shown true ;;
      st_rerun
    else skip).

Definition wallet_banner : M unit :=
  _ <- attr chats_used "chats_used" ;;
  _ <- attr wallet_credits "wallet_credits" ;;
  skip.

Definition add_credit : M unit :=
  credits <- attr wallet_credits "wallet_credits" ;;
  assign set_wallet_credits (credits + 1)%Z ;;
  emit (Success (py "1 chat credit added! You can now continue chatting.")).

(** The ledger update that closes an answered send (the last statements of
    the send handler in [chat_screen] before its rerun). *)
Definition record_chat : M unit :=
  used <- attr chats_used "chats_used" ;;
  assign set_chats_used (used + 1)%Z ;;
  used' <- attr chats_used "chats_used" ;;
  if (used' >? FREE_CHAT_LIMIT)%Z then
    credits <- attr wallet_credits "wallet_credits" ;;
    assign set_wallet_credits (Z.max 0 (credits - 1))
  else skip.

(** The guard of the send handler that refuses a message:
    [chats_used >= FREE_CHAT_LIMIT and wallet_credits <= 0]. *)
Definition credit_exhausted (used credits : Z) : bool :=
  ((FREE_CHAT_LIMIT <=? used) && (credits <=? 0))%Z.

(** Chat eligibility, the negation of that guard. *)
Definition can_chat (used credits : Z) : bool :=
  negb (credit_exhausted used credits).

(** The send handler of [chat_screen]: the body under
    [if st.button("Send") and user_input.strip():], run when Send is pressed
    with a non-blank text. *)
Definition send_message (user_input : pystr) : M unit :=
  conv <- attr conversation "conversation" ;;
  assign set_conversation (conv ++ [ msg user (strip user_input) ]) ;;
  if contains_crisis_keywords unicode_lower user_input then
    assign set_crisis_mode true ;;
    st_rerun
  else
    used <- attr chats_used "chats_used" ;;
    exhausted <-
      (if (FREE_CHAT_LIMIT <=? used)%Z then
         credits <- attr wallet_credits "wallet_credits" ;;
         ret (credits <=? 0)%Z
       else ret false) ;;
    if exhausted then
      emit (Warning (py "You have reached your free chat limit. Please add credits or watch an ad."))
    else
      messages <- attr conversation "conversation" ;;
      bot_response <- openrouter_chat_api messages ;;
      conv' <- attr conversation "conversation" ;;
      assign set_conversation (conv' ++ [ msg assistant bot_response ]) ;;
      record_chat ;;
      st_rerun.

(** The early [return]s of the Python function are the ends of the
    branches here: crisis card, paywall, input. *)
Definition chat_screen : M unit :=
  _ <- attr topic "topic" ;;
  wallet_banner ;;
  _ <- attr conversation "conversation" ;;
  crisis <- attr crisis_mode "crisis_mode" ;;
  if crisis then
    match action with
    | ClickEndSession => reset_session ;; st_rerun
    | _ => skip
    end
  else
    credits <- attr wallet_credits "wallet_credits" ;;
    if (credits <=? 0)%Z then
      emit (Warning (py "You have no chat credits left.")) ;;
      match action with
      | ClickWatchAd => emit (Sleep 3) ;; add_credit ;; st_rerun
      | ClickLogout => reset_session ;; st_rerun
      | _ => skip
      end
    else
      match action with
      | ClickSend user_input =>
          if truthy (strip user_input) then send_message user_input else skip
      | _ => skip
      end.

Definition main : M unit :=
  initialize_session_state ;;
  logged <- attr logged_in "logged_in" ;;
  if negb logged then login_screen
  else
    chosen <- attr topic "topic" ;;
    match chosen with
    | None => topic_selection_screen
    | Some _ => chat_screen
    end.

End Script.

(** ** Runs and interactions *)

(** One execution of the script, from a store, with an empty trace. *)
Definition run_script (ul : pystr -> N -> pystr -> pystr) (env : Env)
    (action : Action) (s : SessionState) : Res unit * World :=
  main ul env action (world s []).

(** One user interaction: the run that sees the click and, when that run
    asks for it, the rerun that follows, in which no button is pressed. *)
Definition interact (ul : pystr -> N -> pystr -> pystr) (env : Env)
    (action : Action) (s : SessionState) : Res unit * World :=
  match run_script ul env action s with
  | (Rerun, w) => main ul env NoClick w
  | r => r
  end.

(** The session state an interaction leaves. *)
Definition after (ul : pystr -> N -> pystr -> pystr) (env : Env)
    (action : Action) (s : SessionState) : SessionState :=
  ss (snd (interact ul env action s)).

(** States a session can be in: a new session has an empty store, and each
    interaction is free in what the user clicks and in how the outside
    answers. *)
Inductive reachable (ul : pystr -> N -> pystr -> pystr) : SessionState -> Prop :=
| reachable_new : reachable ul empty_state
| reachable_next (s : SessionState) (env : Env) (action : Action) :
    reachable ul s -> reachable ul (after ul env action s).

(** States a session can be in when every environment it meets is of a
    given kind. *)
Inductive reachable_in (ul : pystr -> N -> pystr -> pystr) (kind : Env -> Prop) :
    SessionState -> Prop :=
| reachable_in_new : reachable_in ul kind empty_state
| reachable_in_next (s : SessionState) (env : Env) (action : Action) :
    kind env -> reachable_in ul kind s ->
    reachable_in ul kind (after ul env action s).

(** The calls of the chat client in a trace. *)
Fixpoint client_calls (l : list Effect) : list (list Message) :=
  match l with
  | [] => []
  | ClientCall m :: l' => m :: client_calls l'
  | _ :: l' => client_calls l'
  end.

(** The HTTP requests in a trace. *)
Fixpoint http_posts (l : list Effect) : list (list Message) :=
  match l with
  | [] => []
  | HttpPost m :: l' => m :: http_posts l'
  | _ :: l' => http_posts l'
  end.

(** ** The ledger on its own *)

Inductive LedgerOp : Type := OpRecordChat | OpAddCredit.

Definition ledger_op (op : LedgerOp) : M unit :=
  match op with
  | OpRecordChat => record_chat
  | OpAddCredit => add_credit
  end.

(** The store after [initialize_session_state] on a new session. *)
Definition fresh_state : SessionState :=
  store (Some false) (Some []) (Some None) (Some []) (Some FREE_CHAT_LIMIT)
        (Some 0%Z) (Some false) (Some false).

(** Some environments and inputs to run the model on. *)
Definition env_ok (reply : pystr) : Env :=
  environment (SecretsFile (Some (py "sk-test"))) None (fun _ => HttpContent reply).
Definition env_timeout : Env :=
  environment (SecretsFile (Some (py "sk-test"))) None
              (fun _ => HttpRaises (py "Read timed out.")).
Definition env_no_key : Env :=
  environment (SecretsFile None) None (fun _ => HttpContent (py "unused")).
Definition env_no_secrets : Env :=
  environment (SecretsMissing (py "No secrets found.")) None
              (fun _ => HttpContent (py "unused")).

(** Several interactions in a row, each with its own environment. *)
Fixpoint interactions (ul : pystr -> N -> pystr -> pystr)
    (steps : list (Env * Action)) (s : SessionState) : SessionState :=
  match steps with
  | [] => s
  | (env, action) :: steps' => interactions ul steps' (after ul env action s)
  end.

(** A text contains a term without regard to ASCII case: some window of the
    text agrees with the term code point by code point, both ASCII, up to
    the case of the letters. *)
Definition caseless_char (c k : N) : Prop :=
  is_ascii c = true /\ is_ascii k = true /\ ascii_lower c = ascii_lower k.

Definition occurs_caseless (term text : pystr) : Prop :=
  exists pre w post,
    text = pre ++ w ++ post /\ Forall2 caseless_char w term.

(** The table keeps non-ASCII code points apart from ASCII on a text: each
    non-ASCII code point of the text lower-cases, where it stands, to at
    least one code point and to no ASCII one. *)
Definition lowers_apart_from (ul : pystr -> N -> pystr -> pystr)
    (before text : pystr) : Prop :=
  forall pre c post,
    text = pre ++ c :: post -> is_ascii c = false ->
    ul (before ++ pre) c post <> []
    /\ forallb (fun x => negb (is_ascii x)) (ul (before ++ pre) c post) = true.

Definition lowers_apart (ul : pystr -> N -> pystr -> pystr) (text : pystr) : Prop :=
  lowers_apart_from ul [] text.

(** ** The store after initialization *)

Definition or_default {A : Type} (o : option A) (d : A) : A :=
  match o with
  | Some v => v
  | None => d
  end.

(** What [initialize_session_state] leaves: every key present, the absent
    ones at their defaults. *)
Definition initialized (s : SessionState) : SessionState :=
  store (Some (or_default (logged_in s) false))
        (Some (or_default (username s) []))
        (Some (or_default (topic s) None))
        (Some (or_default (conversation s) []))
        (Some (or_default (wallet_credits s) FREE_CHAT_LIMIT))
        (Some (or_default (chats_used s) 0%Z))
        (Some (or_default (crisis_mode s) false))
        (Some (or_default (topic_welcome_shown s) false)).

(** Every key of the script is present. *)
Definition populated (s : SessionState) : Prop := initialized s = s.

(** The session is on the chat screen with the input shown: logged in, a
    topic chosen, no crisis, credits left. *)
Definition chatting (s : SessionState) : Prop :=
  logged_in s = Some true
  /\ (exists t, topic s = Some (Some t))
  /\ crisis_mode s = Some false
  /\ exists credits, wallet_credits s = Some credits /\ (0 < credits)%Z.

(** The session is on the chat screen: logged in with a topic chosen. *)
Definition on_chat_screen (s : SessionState) : Prop :=
  logged_in s = Some true /\ exists t, topic s = Some (Some t).

(** The system-prompt message. *)
Definition system_message : Message := msg system SYSTEM_PROMPT.

(** ** The chat client in closed form *)

(** The secrets can be read: there is a secrets file. *)
Definition secrets_readable (env : Env) : Prop :=
  exists key, secrets env = SecretsFile key.

Definition secrets_missing (env : Env) : bool :=
  match secrets env with
  | SecretsMissing _ => true
  | SecretsFile _ => false
  end.

(** The key [get_openrouter_api_key] comes back with; none when the lookup
    raises. *)
Definition found_key (env : Env) : option pystr :=
  match secrets env with
  | SecretsMissing _ => None
  | SecretsFile key => if negb (truthy_key key) then session_key env else key
  end.

(** What [openrouter_chat_api] returns once the key lookup has returned. *)
Definition client_reply (env : Env) (messages : list Message) : pystr :=
  if negb (truthy_key (found_key env)) then NO_KEY_REPLY
  else
    match http env messages with
    | HttpContent reply => reply
    | HttpRaises _ => API_FAILURE_REPLY
    end.

(** How [openrouter_chat_api] ends: with its reply, or with the exception
    of the key lookup. *)
Definition client_result (env : Env) (messages : list Message) : Res pystr :=
  match secrets env with
  | SecretsMissing e => Raise e
  | SecretsFile _ => Val (client_reply env messages)
  end.

(** What [openrouter_chat_api] adds to the trace. *)
Definition client_effects (env : Env) (messages : list Message) : list Effect :=
  match secrets env with
  | SecretsMissing _ => [ ClientCall messages ]
  | SecretsFile _ =>
      if negb (truthy_key (found_key env)) then
        [ ClientCall messages;
          Error (py "OpenRouter API key not found. Please add it to your Streamlit secrets as OPENROUTER_API_KEY.") ]
      else
        match http env messages with
        | HttpContent _ => [ ClientCall messages; HttpPost messages ]
        | HttpRaises e =>
            [ ClientCall messages; HttpPost messages;
              Error (py "Error communicating with OpenRouter API: " ++ e) ]
        end
  end.

(** The failures the chat client answers with a fallback string: the key
    lookup finds no usable key, or the exchange raises (transport error,
    timeout, malformed payload). *)
Definition client_fails (env : Env) (messages : list Message) : Prop :=
  truthy_key (found_key env) = false
  \/ exists e, http env messages = HttpRaises e.

(** The balance after [record_chat], from the counter and balance before. *)
Definition balance_after_chat (used credits : Z) : Z :=
  if (used + 1 >? FREE_CHAT_LIMIT)%Z then Z.max 0 (credits - 1) else credits.

(** A store with every key present. *)
Abbreviation full l u t c wc cu cm tw :=
  (store (Some l) (Some u) (Some t) (Some c) (Some wc) (Some cu) (Some cm) (Some tw)).

(** The prompt of a topic, and the request [get_topic_welcome] sends for
    it. *)
Definition topic_prompt (name : pystr) : pystr :=
  or_default (dict_get TOPIC_PROMPT_TEMPLATES name) [].

Definition welcome_request (name : pystr) : list Message :=
  [ system_message; msg user (topic_prompt name) ].

(** What [get_topic_welcome] returns for a topic of the table: the reply of
    the client, or the static line when the client raised. *)
Definition topic_welcome (env : Env) (name : pystr) : pystr :=
  match secrets env with
  | SecretsMissing _ => STATIC_WELCOME
  | SecretsFile _ => client_reply env (welcome_request name)
  end.

(** ** The moves of a session *)

(** What one interaction can do to an initialized store: nothing, a login,
    the choice of a topic, a send that trips the crisis matcher, a send that
    is answered, a send cut short by the exception of the key lookup (only
    when [faulty]), a credit earned, or the end of the session. *)
Inductive transition (faulty : bool) : SessionState -> SessionState -> Prop :=
| tr_stay (s : SessionState) :
    transition faulty s s
| tr_login (name u : pystr) t c wc cu cm tw :
    truthy name = true ->
    transition faulty (full false u t c wc cu cm tw)
               (full true name t c wc cu cm tw)
| tr_topic (name welcome u : pystr) c wc cu cm tw :
    In name topics ->
    transition faulty (full true u None c wc cu cm tw)
               (full true u (Some name)
                     [system_message; msg assistant welcome] wc cu false true)
| tr_crisis (text u t : pystr) c (wc cu : Z) tw :
    (0 < wc)%Z ->
    transition faulty (full true u (Some t) c wc cu false tw)
               (full true u (Some t) (c ++ [msg user text]) wc cu true tw)
| tr_answer (text reply u t : pystr) c (wc cu : Z) tw :
    (0 < wc)%Z ->
    transition faulty (full true u (Some t) c wc cu false tw)
               (full true u (Some t)
                     ((c ++ [msg user text]) ++ [msg assistant reply])
                     (balance_after_chat cu wc) (cu + 1)%Z false tw)
| tr_unanswered (text u t : pystr) c (wc cu : Z) tw :
    faulty = true -> (0 < wc)%Z ->
    transition faulty (full true u (Some t) c wc cu false tw)
               (full true u (Some t) (c ++ [msg user text]) wc cu false tw)
| tr_credit (u t : pystr) c (wc cu : Z) tw :
    (wc <= 0)%Z ->
    transition faulty (full true u (Some t) c wc cu false tw)
               (full true u (Some t) c (wc + 1)%Z cu false tw)
| tr_reset (u t : pystr) c (wc cu : Z) cm tw :
    cm = true \/ (wc <= 0)%Z ->
    transition faulty (full true u (Some t) c wc cu cm tw) fresh_state.

(** What the paywall shows. *)
Definition no_credits_warning : Effect :=
  Warning (py "You have no chat credits left.").

(** A text that passes as an ordinary message: not blank, and free of
    crisis terms. *)
Definition ordinary (ul : pystr -> N -> pystr -> pystr) (text : pystr) : Prop :=
  truthy (strip text) = true /\ contains_crisis_keywords ul text = false.

(** A send is blocked when the interaction it starts never enters the chat
    client. *)
Definition send_blocked (ul : pystr -> N -> pystr -> pystr) (env : Env)
    (text : pystr) (s : SessionState) : Prop :=
  client_calls (log (snd (interact ul env (ClickSend text) s))) = [].

(** The ledger invariant of a session: counters are not negative, and the
    balance is positive as long as free chats remain. *)
Definition ledger_ok (s : SessionState) : Prop :=
  exists wc cu,
    wallet_credits s = Some wc /\ chats_used s = Some cu
    /\ (0 <= wc)%Z /\ (0 <= cu)%Z /\ ((cu < FREE_CHAT_LIMIT)%Z -> (0 < wc)%Z).

(** The conversation invariant: with a topic chosen, the conversation opens
    with the system prompt. *)
Definition system_first (s : SessionState) : Prop :=
  forall t, topic s = Some (Some t) ->
  exists conv, conversation s = Some conv /\ nth_error conv 0 = Some system_message.

(** Chat turns: sends with the environment each one meets. *)
Definition sends (turns : list (Env * pystr)) : list (Env * Action) :=
  map (fun '(env, text) => (env, ClickSend text)) turns.

(** What holds of every store a session can be in after its first
    interaction. *)
Definition sound (s : SessionState) : Prop :=
  populated s /\ ledger_ok s /\ system_first s.

(** What the send handler shows when its own credit test refuses. *)
Definition refusal_warning : Effect :=
  Warning (py "You have reached your free chat limit. Please add credits or watch an ad.").

(** ** Sample sessions *)

(** On the topic screen, just logged in. *)
Definition at_topic_screen : SessionState :=
  full true (py "Alex") None [] 5%Z 0%Z false false.

(** On the chat screen with a welcome on display. *)
Definition chat_state (credits used : Z) : SessionState :=
  full true (py "Alex") (Some (py "Anxiety"))
       [system_message; msg assistant (py "Welcome.")] credits used false true.

(** A new session in which Alex logs in, picks Anxiety and has [n] ordinary
    messages answered. *)
Definition alex_after (n : nat) : SessionState :=
  interactions keep_unicode
    ((env_ok (py "Welcome."), ClickLogin (py "Alex"))
       :: (env_ok (py "Welcome."), ClickTopic 2)
       :: sends (repeat (env_ok (py "I hear you."), py "hello") n))
    empty_state.

(** ** The shape of a conversation *)

(** A run of exchanges: user messages, each followed by the assistant's
    reply. *)
Fixpoint exchanges (c : list Message) : bool :=
  match c with
  | [] => true
  | m1 :: c1 =>
      match c1 with
      | [] => false
      | m2 :: c2 =>
          match role m1, role m2 with
          | user, assistant => exchanges c2
          | _, _ => false
          end
      end
  end.

(** With a topic chosen, the conversation is the system prompt, the
    assistant's welcome and a run of exchanges; out of crisis mode that is
    all, in crisis mode one unanswered user message follows. *)
Definition dialogue (s : SessionState) : Prop :=
  forall t, topic s = Some (Some t) ->
  exists welcome body tail,
    conversation s
    = Some (system_message :: msg assistant welcome :: body ++ tail)
    /\ exchanges body = true
    /\ ((crisis_mode s = Some false /\ tail = [])
        \/ (crisis_mode s = Some true /\ exists x, tail = [msg user x])).

(** In a session the paywall is ten answered chats away: the balance is the
    full quota through the free chats and then at least what is left of
    ten. *)
Definition ten_chats_first (s : SessionState) : Prop :=
  exists wc cu,
    wallet_credits s = Some wc /\ chats_used s = Some cu
    /\ (0 <= cu)%Z
    /\ ((cu <= FREE_CHAT_LIMIT)%Z -> wc = FREE_CHAT_LIMIT)
    /\ ((FREE_CHAT_LIMIT < cu)%Z -> (10 - cu <= wc)%Z) /\ (0 <= wc)%Z.

(** More sample sessions: crisis mode after a flagged message, a store
    with keys missing, and a configuration whose only key is the empty
    string. *)
Definition crisis_state : SessionState :=
  full true (py "Alex") (Some (py "Anxiety"))
       [system_message; msg assistant (py "Welcome.");
        msg user (py "I want to die")] 5%Z 0%Z true true.

Definition partial_store : SessionState :=
  store None (Some (py "Alex")) None None (Some 2%Z) None None None.

Definition env_empty_key : Env :=
  environment (SecretsFile (Some [])) None (fun _ => HttpContent (py "unused")).

(** * Properties *)

(** ** Strings *)

Section StringFacts.

Lemma startswith_spec (k s : pystr) :
  startswith k s = true <-> exists post, s = k ++ post.
Proof.
  revert s; induction k as [|a k IH]; intros s; simpl.
  - split; [intros _; now exists s | reflexivity].
  - destruct s as [|b s].
    + split; [discriminate | intros [post E]; discriminate].
    + rewrite andb_true_iff, N.eqb_eq, IH. split.
      * intros [-> [post ->]]. now exists post.
      * intros [post E]. injection E as -> ->. split; [reflexivity | now exists post].
Qed.

Lemma str_in_spec (k s : pystr) :
  str_in k s = true <-> exists pre post, s = pre ++ k ++ post.
Proof.
  induction s as [|b s IH].
  - simpl. rewrite orb_false_r, startswith_spec. split.
    + intros [post E]. now exists [], post.
    + intros (pre & post & E). destruct pre; [now exists post | discriminate].
  - cbn [str_in]. rewrite orb_true_iff, startswith_spec, IH. split.
    + intros [[post E] | (pre & post & E)].
      * now exists [], post.
      * exists (b :: pre), post. now rewrite E.
    + intros (pre & post & E). destruct pre as [|c pre].
      * left. now exists post.
      * right. injection E as _ E. now exists pre, post.
Qed.

Variable unicode_lower : pystr -> N -> pystr -> pystr.

(** Lower-casing goes code point by code point: the lower-cased text is
    the lower-cased prefix followed by the lower-cased rest. *)
Lemma lower_from_app (before xs ys : pystr) :
  exists lowered_xs,
    lower_from unicode_lower before (xs ++ ys)
    = lowered_xs ++ lower_from unicode_lower (before ++ xs) ys.
Proof.
  revert before; induction xs as [|c xs IH]; intros before.
  - exists []. now rewrite app_nil_r.
  - destruct (IH (before ++ [c])) as [l E].
    exists (lower_char unicode_lower before c (xs ++ ys) ++ l).
    cbn [app lower_from]. rewrite E, <- !app_assoc. reflexivity.
Qed.

Lemma lower_from_ascii (before w post : pystr) :
  forallb is_ascii w = true ->
  lower_from unicode_lower before (w ++ post)
  = map ascii_lower w ++ lower_from unicode_lower (before ++ w) post.
Proof.
  revert before; induction w as [|c w IH]; intros before H.
  - now rewrite app_nil_r.
  - cbn [forallb] in H. apply andb_true_iff in H as [Hc Hw].
    cbn [app lower_from map]. unfold lower_char. rewrite Hc.
    rewrite IH by assumption. now rewrite <- !app_assoc.
Qed.

Lemma caseless_window (w term : pystr) :
  Forall2 caseless_char w term ->
  forallb is_ascii w = true /\ map ascii_lower w = map ascii_lower term.
Proof.
  induction 1 as [|c k w term (Hc & _ & E) _ [IH1 IH2]]; cbn; [easy|].
  rewrite Hc, IH1, E, IH2. easy.
Qed.

Lemma window_caseless (w term : pystr) :
  forallb is_ascii w = true ->
  forallb is_ascii term = true ->
  map ascii_lower w = map ascii_lower term ->
  Forall2 caseless_char w term.
Proof.
  revert term; induction w as [|c w IH]; intros [|k term] Hw Ht E;
    try discriminate; constructor.
  - cbn in Hw, Ht, E. apply andb_true_iff in Hw as [? ?].
    apply andb_true_iff in Ht as [? ?]. injection E as ? ?.
    now repeat split.
  - cbn in Hw, Ht, E. apply andb_true_iff in Hw as [? ?].
    apply andb_true_iff in Ht as [? ?]. injection E as ? ?.
    now apply IH.
Qed.

(** Every crisis term is ASCII and already lower-case. *)
Lemma crisis_terms_plain (k : pystr) :
  In k CRISIS_KEYWORDS ->
  forallb is_ascii k = true /\ map ascii_lower k = k /\ k <> [].
Proof.
  intros H.
  assert (A : forallb (fun t => forallb is_ascii t
                               && PyStr.eqb (map ascii_lower t) t
                               && truthy t)
                      CRISIS_KEYWORDS = true) by reflexivity.
  rewrite forallb_forall in A. specialize (A k H).
  apply andb_true_iff in A as [A A3]. apply andb_true_iff in A as [A1 A2].
  split; [assumption|]. split.
  - unfold PyStr.eqb in A2.
    now destruct (list_eq_dec N.eq_dec (map ascii_lower k) k).
  - now destruct k.
Qed.

Lemma forallb_app_inv (f : N -> bool) (a b : pystr) :
  forallb f (a ++ b) = true -> forallb f a = true /\ forallb f b = true.
Proof. rewrite forallb_app. apply andb_true_iff. Qed.

Lemma contains_crisis_keywords_lowered (text : pystr) :
  contains_crisis_keywords unicode_lower text = true <->
  exists k pre post,
    In k CRISIS_KEYWORDS /\ lower unicode_lower text = pre ++ k ++ post.
Proof.
  unfold contains_crisis_keywords. rewrite existsb_exists. split.
  - intros (k & Hin & Hk). apply str_in_spec in Hk as (pre & post & E).
    now exists k, pre, post.
  - intros (k & pre & post & Hin & E). exists k. split; [assumption|].
    apply str_in_spec. now exists pre, post.
Qed.

Lemma caseless_occurrence_detected (text k : pystr) :
  In k CRISIS_KEYWORDS -> occurs_caseless k text ->
  contains_crisis_keywords unicode_lower text = true.
Proof.
  intros Hin (pre & w & post & -> & Hw).
  apply caseless_window in Hw as [Hascii Hmap].
  destruct (crisis_terms_plain Hin) as (_ & Hk & _). rewrite Hk in Hmap.
  apply contains_crisis_keywords_lowered.
  destruct (lower_from_app [] pre (w ++ post)) as [l E].
  exists k, l, (lower_from unicode_lower (([] ++ pre) ++ w) post).
  split; [assumption|]. unfold lower. rewrite E.
  rewrite lower_from_ascii by assumption. now rewrite Hmap.
Qed.

Lemma lowers_apart_tail (before : pystr) (c : N) (rest : pystr) :
  lowers_apart_from unicode_lower before (c :: rest) -> lowers_apart_from unicode_lower (before ++ [c]) rest.
Proof.
  intros H pre d post E Hd. rewrite <- app_assoc. cbn [app].
  apply (H (c :: pre) d post); [now rewrite E | assumption].
Qed.

Lemma lowers_apart_head (before : pystr) (c : N) (rest : pystr) :
  lowers_apart_from unicode_lower before (c :: rest) -> is_ascii c = false ->
  exists u U,
    unicode_lower before c rest = u :: U /\ is_ascii u = false
    /\ forallb (fun x => negb (is_ascii x)) U = true.
Proof.
  intros H Hc. destruct (H [] c rest eq_refl Hc) as [Hne Hall].
  rewrite app_nil_r in Hne, Hall.
  destruct (unicode_lower before c rest) as [|u U]; [now destruct Hne|].
  cbn in Hall. apply andb_true_iff in Hall as [Hu HU].
  exists u, U. repeat split; [now apply negb_true_iff | assumption].
Qed.

Lemma startswith_window (k text before : pystr) :
  forallb is_ascii k = true ->
  lowers_apart_from unicode_lower before text ->
  startswith k (lower_from unicode_lower before text) = true ->
  exists w post,
    text = w ++ post /\ forallb is_ascii w = true /\ map ascii_lower w = k.
Proof.
  revert text before; induction k as [|a k IH]; intros text before Hk Hc Hs.
  - now exists [], text.
  - cbn in Hk. apply andb_true_iff in Hk as [Ha Hk].
    destruct text as [|c rest]; [discriminate|].
    cbn [lower_from] in Hs. unfold lower_char in Hs.
    destruct (is_ascii c) eqn:Ec.
    + cbn in Hs. apply andb_true_iff in Hs as [E Hs]. apply N.eqb_eq in E.
      destruct (IH rest (before ++ [c]) Hk (lowers_apart_tail Hc) Hs)
        as (w & post & -> & Hw & Hm).
      exists (c :: w), post. cbn. rewrite Ec, Hw, Hm, <- E. now repeat split.
    + destruct (lowers_apart_head Hc Ec) as (u & U & EU & Hu & _).
      rewrite EU in Hs. cbn in Hs. apply andb_true_iff in Hs as [E _].
      apply N.eqb_eq in E. congruence.
Qed.

Lemma str_in_skip (k U L : pystr) (a : N) :
  is_ascii a = true ->
  forallb (fun x => negb (is_ascii x)) U = true ->
  str_in (a :: k) (U ++ L) = str_in (a :: k) L.
Proof.
  intros Ha. induction U as [|u U IH]; intros HU; [reflexivity|].
  cbn in HU. apply andb_true_iff in HU as [Hu HU]. apply negb_true_iff in Hu.
  cbn [app str_in startswith].
  assert ((a =? u)%N = false) as -> by (apply N.eqb_neq; congruence).
  cbn. now apply IH.
Qed.

Lemma str_in_window (text before k : pystr) :
  k <> [] -> forallb is_ascii k = true ->
  lowers_apart_from unicode_lower before text ->
  str_in k (lower_from unicode_lower before text) = true ->
  exists pre w post,
    text = pre ++ w ++ post /\ forallb is_ascii w = true /\ map ascii_lower w = k.
Proof.
  intros Hne Hk. revert before; induction text as [|c rest IH]; intros before Hc Hs.
  - destruct k; [now destruct Hne | discriminate].
  - assert (Hrest : str_in k (lower_from unicode_lower (before ++ [c]) rest) = true ->
                    exists pre w post,
                      c :: rest = pre ++ w ++ post
                      /\ forallb is_ascii w = true /\ map ascii_lower w = k).
    { intros H. destruct (IH _ (lowers_apart_tail Hc) H) as (pre & w & post & -> & Hw & Hm).
      now exists (c :: pre), w, post. }
    destruct (is_ascii c) eqn:Ec.
    + assert (E : lower_from unicode_lower before (c :: rest)
                  = ascii_lower c :: lower_from unicode_lower (before ++ [c]) rest).
      { cbn [lower_from]. unfold lower_char. now rewrite Ec. }
      pose proof Hs as Hs'. rewrite E in Hs'. cbn [str_in] in Hs'.
      apply orb_true_iff in Hs' as [H | H]; [|now apply Hrest].
      rewrite <- E in H.
      destruct (startswith_window _ Hk Hc H) as (w & post & Ew & Hw & Hm).
      exists [], w, post. now repeat split.
    + destruct (lowers_apart_head Hc Ec) as (u & U & EU & Hu & HU).
      cbn [lower_from] in Hs. unfold lower_char in Hs. rewrite Ec, EU in Hs.
      destruct k as [|a k]; [now destruct Hne|].
      cbn in Hk. apply andb_true_iff in Hk as [Ha Hk'].
      rewrite (@str_in_skip k (u :: U) _ a Ha) in Hs.
      * now apply Hrest.
      * cbn. now rewrite Hu, HU.
Qed.

Lemma apart_detection_has_occurrence (text : pystr) :
  lowers_apart unicode_lower text ->
  contains_crisis_keywords unicode_lower text = true ->
  exists k, In k CRISIS_KEYWORDS /\ occurs_caseless k text.
Proof.
  intros Hap H.
  apply contains_crisis_keywords_lowered in H as (k & a & b & Hin & E).
  destruct (crisis_terms_plain Hin) as (Hk1 & Hk2 & Hk3).
  assert (S : str_in k (lower_from unicode_lower [] text) = true).
  { apply str_in_spec. now exists a, b. }
  destruct (str_in_window Hk3 Hk1 Hap S) as (pre & w & post & -> & Hw & Hm).
  exists k. split; [assumption|]. exists pre, w, post. split; [reflexivity|].
  apply window_caseless; try assumption. now rewrite Hk2.
Qed.

(** Texts of ASCII code points, and all texts under a table that maps
    non-ASCII code points to themselves, are of that kind. *)
Lemma ascii_lowers_apart (text : pystr) :
  forallb is_ascii text = true -> lowers_apart unicode_lower text.
Proof.
  intros H pre c post -> Hc.
  apply forallb_app_inv in H as [_ H]. cbn in H. now rewrite Hc in H.
Qed.

End StringFacts.

(** Under the identity table every text keeps non-ASCII apart. *)
Lemma keep_unicode_lowers_apart (text : pystr) : lowers_apart keep_unicode text.
Proof.
  intros pre c post _ Hc. unfold keep_unicode. cbn. rewrite Hc.
  split; [discriminate | reflexivity].
Qed.

(** C4. [contains_crisis_keywords] is a function of the text alone.  For
    every text that holds a crisis term as a substring up to the case of its
    letters the result is true, and the result is true exactly when a term
    occurs in the lower-cased text.  For every text that holds no term up to
    case the result is false, given that lower-casing does not turn a
    non-ASCII code point of the text into ASCII or into nothing (so for
    every text of ASCII code points).  The empty text gives false. *)
Theorem C4_keyword_matcher (ul : pystr -> N -> pystr -> pystr) :
  (forall text k,
      In k CRISIS_KEYWORDS -> occurs_caseless k text ->
      contains_crisis_keywords ul text = true)
  /\ (forall text,
         contains_crisis_keywords ul text = true <->
         exists k pre post, In k CRISIS_KEYWORDS /\ lower ul text = pre ++ k ++ post)
  /\ (forall text,
         lowers_apart ul text ->
         (forall k, In k CRISIS_KEYWORDS -> ~ occurs_caseless k text) ->
         contains_crisis_keywords ul text = false)
  /\ (forall text, forallb is_ascii text = true -> lowers_apart ul text)
  /\ contains_crisis_keywords ul [] = false.
Proof.
  split; [|split; [|split; [|split]]].
  - intros text k. apply caseless_occurrence_detected.
  - apply contains_crisis_keywords_lowered.
  - intros text Hap Hnone.
    destruct (contains_crisis_keywords ul text) eqn:E; [|reflexivity].
    destruct (@apart_detection_has_occurrence ul text Hap E) as (k & Hin & Hocc).
    now destruct (Hnone k Hin).
  - intros text. apply ascii_lowers_apart.
  - reflexivity.
Qed.

(** Symbolic runs keep arithmetic, string constants and the procedures with
    a closed form of their own folded. *)
Local Arguments Z.leb : simpl never.
Local Arguments Z.gtb : simpl never.
Local Arguments Z.max : simpl never.
Local Arguments Z.add : simpl never.
Local Arguments Z.sub : simpl never.
Local Arguments py : simpl never.
Local Arguments SYSTEM_PROMPT : simpl never.
Local Arguments TOPIC_PROMPT_TEMPLATES : simpl never.
Local Arguments strip : simpl never.
Local Arguments contains_crisis_keywords : simpl never.
Local Arguments FREE_CHAT_LIMIT : simpl never.
Local Arguments truthy_key : simpl never.
Local Arguments get_openrouter_api_key : simpl never.
Local Arguments record_chat : simpl never.
Local Arguments openrouter_chat_api : simpl never.

(** ** Runs of the script in closed form *)

Section Runs.
Variable ul : pystr -> N -> pystr -> pystr.
Variable env : Env.

Lemma initialize_run (w : World) :
  initialize_session_state w = (Val tt, world (initialized (ss w)) (log w)).
Proof.
  destruct w as [[[l|] [u|] [t|] [c|] [wc|] [cu|] [cm|] [tw|]] lg]; reflexivity.
Qed.

Lemma get_openrouter_api_key_run (w : World) :
  get_openrouter_api_key env w
  = (match secrets env with
     | SecretsMissing e => Raise e
     | SecretsFile _ => Val (found_key env)
     end, w).
Proof.
  unfold get_openrouter_api_key, found_key, bind, raise, ret.
  destruct (secrets env) as [e|key]; [reflexivity|].
  now destruct (negb (truthy_key key)).
Qed.

Lemma openrouter_chat_api_run (messages : list Message) (w : World) :
  openrouter_chat_api env messages w
  = (client_result env messages,
     world (ss w) (log w ++ client_effects env messages)).
Proof.
  unfold openrouter_chat_api, client_result, client_reply, client_effects,
    requests_post.
  unfold bind at 1. cbn [emit]. unfold bind at 1.
  rewrite get_openrouter_api_key_run.
  destruct (secrets env) as [e|key]; [reflexivity|].
  destruct (negb (truthy_key (found_key env))); cbn.
  - now rewrite <- app_assoc.
  - unfold try_except, bind; cbn.
    destruct (http env messages); cbn; now rewrite <- ?app_assoc.
Qed.

Lemma get_topic_welcome_run (name prompt : pystr) (w : World) :
  dict_get TOPIC_PROMPT_TEMPLATES name = Some prompt ->
  get_topic_welcome env name w
  = (Val (match secrets env with
          | SecretsMissing _ => STATIC_WELCOME
          | SecretsFile _ => client_reply env [system_message; msg user prompt]
          end),
     world (ss w) (log w ++ client_effects env [system_message; msg user prompt])).
Proof.
  intros H. unfold get_topic_welcome. rewrite H.
  unfold try_except, bind. rewrite openrouter_chat_api_run.
  unfold client_result. now destruct (secrets env).
Qed.

Lemma record_chat_run l u t c wc cu cm tw lg :
  record_chat (world (full l u t c wc cu cm tw) lg)
  = (Val tt, world (full l u t c (balance_after_chat cu wc) (cu + 1)%Z cm tw) lg).
Proof.
  unfold record_chat, balance_after_chat. cbn.
  change (cu + 1 >? FREE_CHAT_LIMIT)%Z with (cu + 1 >? FREE_CHAT_LIMIT)%Z.
  destruct (cu + 1 >? FREE_CHAT_LIMIT)%Z; reflexivity.
Qed.

Lemma send_message_crisis text u t c wc cu tw lg :
  contains_crisis_keywords ul text = true ->
  send_message ul env text (world (full true u t c wc cu false tw) lg)
  = (Rerun, world (full true u t (c ++ [msg user (strip text)]) wc cu true tw) lg).
Proof.
  intros H. unfold send_message. cbn. rewrite H. reflexivity.
Qed.


(** A send that goes out to the chat client: answered and counted when the
    key lookup returns, cut short after the user message when it raises. *)
Lemma send_message_sent text l u t c wc cu cm tw lg :
  contains_crisis_keywords ul text = false ->
  credit_exhausted cu wc = false ->
  let sent := c ++ [msg user (strip text)] in
  send_message ul env text (world (full l u t c wc cu cm tw) lg)
  = match secrets env with
    | SecretsMissing e =>
        (Raise e, world (full l u t sent wc cu cm tw)
                        (lg ++ client_effects env sent))
    | SecretsFile _ =>
        (Rerun, world (full l u t (sent ++ [msg assistant (client_reply env sent)])
                            (balance_after_chat cu wc) (cu + 1)%Z cm tw)
                      (lg ++ client_effects env sent))
    end.
Proof.
  intros H E sent. unfold send_message. cbn. rewrite H. cbn.
  unfold credit_exhausted in E.
  assert (X : (if (FREE_CHAT_LIMIT <=? cu)%Z then (wc <=? 0)%Z else false) = false).
  { destruct (FREE_CHAT_LIMIT <=? cu)%Z; [exact E | reflexivity]. }
  unfold bind at 1.
  destruct (FREE_CHAT_LIMIT <=? cu)%Z; cbn in X |- *; rewrite ?X; cbn;
  unfold bind at 1; rewrite openrouter_chat_api_run; unfold client_result;
  destruct (secrets env); cbn; try reflexivity;
  unfold bind, set_conversation; cbn; rewrite record_chat_run; reflexivity.
Qed.

Lemma send_message_answered text l u t c wc cu cm tw lg :
  secrets_readable env ->
  contains_crisis_keywords ul text = false ->
  credit_exhausted cu wc = false ->
  let sent := c ++ [msg user (strip text)] in
  send_message ul env text (world (full l u t c wc cu cm tw) lg)
  = (Rerun, world (full l u t (sent ++ [msg assistant (client_reply env sent)])
                        (balance_after_chat cu wc) (cu + 1)%Z cm tw)
                  (lg ++ client_effects env sent)).
Proof.
  intros [key K] H E sent. rewrite send_message_sent by assumption.
  now rewrite K.
Qed.

Lemma send_message_raises text e l u t c wc cu cm tw lg :
  secrets env = SecretsMissing e ->
  contains_crisis_keywords ul text = false ->
  credit_exhausted cu wc = false ->
  let sent := c ++ [msg user (strip text)] in
  send_message ul env text (world (full l u t c wc cu cm tw) lg)
  = (Raise e, world (full l u t sent wc cu cm tw) (lg ++ [ClientCall sent])).
Proof.
  intros K H E sent. rewrite send_message_sent by assumption.
  unfold client_effects. now rewrite K.
Qed.

Lemma initialized_idem (s : SessionState) : initialized (initialized s) = initialized s.
Proof. reflexivity. Qed.

Lemma main_initialized (action : Action) (s : SessionState) (lg : list Effect) :
  main ul env action (world s lg) = main ul env action (world (initialized s) lg).
Proof.
  unfold main. unfold bind at 1 3. now rewrite !initialize_run.
Qed.

Lemma client_calls_app (a b : list Effect) :
  client_calls (a ++ b) = client_calls a ++ client_calls b.
Proof.
  induction a as [|[] a IH]; cbn; rewrite ?IH; reflexivity.
Qed.

Lemma http_posts_app (a b : list Effect) :
  http_posts (a ++ b) = http_posts a ++ http_posts b.
Proof.
  induction a as [|[] a IH]; cbn; rewrite ?IH; reflexivity.
Qed.

(** A run in which nothing is pressed only renders: it completes, leaves
    the initialized store, and calls nobody. *)
Lemma main_no_click (s : SessionState) (lg : list Effect) :
  exists lg',
    main ul env NoClick (world s lg) = (Val tt, world (initialized s) lg')
    /\ client_calls lg' = client_calls lg
    /\ http_posts lg' = http_posts lg.
Proof.
  rewrite main_initialized. unfold initialized.
  generalize (or_default (logged_in s) false) (or_default (username s) [])
    (or_default (topic s) None) (or_default (conversation s) [])
    (or_default (wallet_credits s) FREE_CHAT_LIMIT) (or_default (chats_used s) 0%Z)
    (or_default (crisis_mode s) false) (or_default (topic_welcome_shown s) false).
  intros l u t c wc cu cm tw.
  unfold main. unfold bind at 1. rewrite initialize_run. cbn.
  destruct l; cbn; [|eexists; split; [reflexivity | split; reflexivity]].
  destruct t; cbn; [|eexists; split; [reflexivity | split; reflexivity]].
  destruct cm; cbn; [eexists; split; [reflexivity | split; reflexivity]|].
  destruct (wc <=? 0)%Z; cbn; eexists; (split; [reflexivity|]);
    rewrite ?client_calls_app, ?http_posts_app, ?app_nil_r; split; reflexivity.
Qed.
End Runs.

Local Arguments truthy : simpl never.
Local Arguments send_message : simpl never.
Local Arguments get_topic_welcome : simpl never.
Local Arguments client_reply : simpl never.
Local Arguments client_effects : simpl never.
Local Arguments topic_prompt : simpl never.

(** ** The screens, action by action *)

Section Screens.
Variable ul : pystr -> N -> pystr -> pystr.
Variable env : Env.

Lemma topic_prompt_found (name : pystr) :
  In name topics ->
  dict_get TOPIC_PROMPT_TEMPLATES name = Some (topic_prompt name).
Proof.
  intros H. repeat (destruct H as [<- | H]; [reflexivity|]). destruct H.
Qed.

Lemma main_login (name u : pystr) t c wc cu cm tw lg :
  main ul env (ClickLogin name) (world (full false u t c wc cu cm tw) lg)
  = if truthy (strip name)
    then (Rerun, world (full true (strip name) t c wc cu cm tw) lg)
    else (Val tt, world (full false u t c wc cu cm tw)
                        (lg ++ [Warning (py "Please enter a valid username.")])).
Proof.
  unfold main. unfold bind at 1. rewrite initialize_run. cbn.
  destruct (truthy (strip name)); reflexivity.
Qed.

Lemma main_topic (idx : nat) (u : pystr) c wc cu cm tw lg :
  main ul env (ClickTopic idx) (world (full true u None c wc cu cm tw) lg)
  = match nth_error topics idx with
    | Some name =>
        (Rerun,
         world (full true u (Some name)
                     [system_message;
                      msg assistant (topic_welcome env name)]
                     wc cu false true)
               (lg ++ client_effects env (welcome_request name)))
    | None => (Val tt, world (full true u None c wc cu cm tw) lg)
    end.
Proof.
  unfold main. unfold bind at 1. rewrite initialize_run. cbn.
  do 5 (destruct idx as [|idx];
        [ unfold bind; cbn;
          erewrite get_topic_welcome_run
            by (apply topic_prompt_found; cbn; tauto);
          cbn; reflexivity | ]).
  cbn. destruct idx; reflexivity.
Qed.

Lemma main_topic_other (action : Action) (u : pystr) c wc cu cm tw lg :
  (forall idx, action <> ClickTopic idx) ->
  main ul env action (world (full true u None c wc cu cm tw) lg)
  = (Val tt, world (full true u None c wc cu cm tw) lg).
Proof.
  intros H. unfold main. unfold bind at 1. rewrite initialize_run.
  destruct action; try reflexivity. now destruct (H idx).
Qed.

Lemma main_login_other (action : Action) (u : pystr) t c wc cu cm tw lg :
  (forall name, action <> ClickLogin name) ->
  main ul env action (world (full false u t c wc cu cm tw) lg)
  = (Val tt, world (full false u t c wc cu cm tw) lg).
Proof.
  intros H. unfold main. unfold bind at 1. rewrite initialize_run.
  destruct action; try reflexivity. now destruct (H username_text).
Qed.

(** The chat screen in crisis mode: only the way out is offered. *)
Lemma main_crisis (action : Action) (u t : pystr) c wc cu tw lg :
  main ul env action (world (full true u (Some t) c wc cu true tw) lg)
  = match action with
    | ClickEndSession => (Rerun, world empty_state lg)
    | _ => (Val tt, world (full true u (Some t) c wc cu true tw) lg)
    end.
Proof.
  unfold main. unfold bind at 1. rewrite initialize_run.
  destruct action; reflexivity.
Qed.

(** The chat screen without credits: the paywall. *)
Lemma main_paywall (action : Action) (u t : pystr) c wc cu tw lg :
  (wc <= 0)%Z ->
  main ul env action (world (full true u (Some t) c wc cu false tw) lg)
  = match action with
    | ClickWatchAd =>
        (Rerun, world (full true u (Some t) c (wc + 1)%Z cu false tw)
                      (lg ++ [no_credits_warning; Sleep 3;
                              Success (py "1 chat credit added! You can now continue chatting.")]))
    | ClickLogout => (Rerun, world empty_state (lg ++ [no_credits_warning]))
    | _ => (Val tt, world (full true u (Some t) c wc cu false tw)
                          (lg ++ [no_credits_warning]))
    end.
Proof.
  intros H. apply Z.leb_le in H.
  unfold main. unfold bind at 1. rewrite initialize_run. cbn. rewrite H.
  destruct action; cbn; rewrite <- ?app_assoc; reflexivity.
Qed.

(** The chat screen with credits: the input is shown. *)
Lemma main_chat (action : Action) (u t : pystr) c wc cu tw lg :
  (0 < wc)%Z ->
  main ul env action (world (full true u (Some t) c wc cu false tw) lg)
  = match action with
    | ClickSend text =>
        if truthy (strip text)
        then send_message ul env text (world (full true u (Some t) c wc cu false tw) lg)
        else (Val tt, world (full true u (Some t) c wc cu false tw) lg)
    | _ => (Val tt, world (full true u (Some t) c wc cu false tw) lg)
    end.
Proof.
  intros H. apply Z.leb_gt in H.
  unfold main. unfold bind at 1. rewrite initialize_run. cbn. rewrite H.
  destruct action; cbn; try reflexivity.
  destruct (truthy (strip user_input)); reflexivity.
Qed.

(** With credits left the counter test of the send handler never
    refuses. *)
Lemma credits_not_exhausted (cu wc : Z) :
  (0 < wc)%Z -> credit_exhausted cu wc = false.
Proof.
  intros H. unfold credit_exhausted. apply andb_false_iff. right.
  now apply Z.leb_gt.
Qed.
End Screens.

Local Arguments main : simpl never.

(** ** Interactions *)

Section Interactions.
Variable ul : pystr -> N -> pystr -> pystr.

Ltac second_pass :=
  match goal with
  | |- context [main ?u ?e NoClick (world ?s ?lg)] =>
      destruct (main_no_click u e s lg) as (? & -> & _ & _);
      unfold initialized;
      cbn [fst snd ss or_default logged_in username topic
           conversation wallet_credits chats_used crisis_mode
           topic_welcome_shown]
  end.

(** Every interaction settles, normally or, for a send that meets
    unreadable secrets, with the exception of the key lookup; and it moves
    the initialized store by one of the moves of the session. *)
Lemma interact_transition (env : Env) (action : Action) (s : SessionState) :
  (fst (interact ul env action s) = Val tt
   \/ exists e text,
        secrets env = SecretsMissing e /\ action = ClickSend text
        /\ fst (interact ul env action s) = Raise e)
  /\ transition (secrets_missing env) (initialized s) (after ul env action s).
Proof.
  unfold after, interact, run_script. rewrite main_initialized.
  unfold initialized.
  generalize (or_default (logged_in s) false) (or_default (username s) [])
    (or_default (topic s) None) (or_default (conversation s) [])
    (or_default (wallet_credits s) FREE_CHAT_LIMIT) (or_default (chats_used s) 0%Z)
    (or_default (crisis_mode s) false) (or_default (topic_welcome_shown s) false).
  intros l u t c wc cu cm tw.
  destruct l.
  2:{ destruct action;
      try (rewrite main_login_other by discriminate; split; [now left | apply tr_stay]).
      rewrite main_login. destruct (truthy (strip username_text)) eqn:E.
      - second_pass. split; [now left | now apply tr_login].
      - split; [now left | apply tr_stay]. }
  destruct t as [t|].
  2:{ destruct action;
      try (rewrite main_topic_other by discriminate; split; [now left | apply tr_stay]).
      rewrite main_topic. destruct (nth_error topics idx) as [name|] eqn:E.
      - second_pass. split; [now left|]. apply tr_topic.
        eapply nth_error_In, E.
      - split; [now left | apply tr_stay]. }
  destruct cm.
  { rewrite main_crisis.
    destruct action; try (split; [now left | apply tr_stay]).
    second_pass. split; [now left|]. apply tr_reset. now left. }
  destruct (Z_le_gt_dec wc 0) as [Hw|Hw].
  { rewrite main_paywall by assumption.
    destruct action; try (split; [now left | apply tr_stay]).
    - second_pass. split; [now left | now apply tr_credit].
    - second_pass. split; [now left|]. apply tr_reset. now right. }
  rewrite main_chat by lia.
  destruct action; try (split; [now left | apply tr_stay]).
  destruct (truthy (strip user_input)); [|split; [now left | apply tr_stay]].
  destruct (contains_crisis_keywords ul user_input) eqn:K.
  - rewrite send_message_crisis by assumption. second_pass.
    split; [now left|]. apply tr_crisis. lia.
  - rewrite send_message_sent
      by (try assumption; apply credits_not_exhausted; lia).
    unfold secrets_missing. destruct (secrets env) as [e|key] eqn:S.
    + split.
      * right. now exists e, user_input.
      * apply tr_unanswered; [reflexivity | lia].
    + second_pass. split; [now left|]. apply tr_answer. lia.
Qed.

Ltac second_pass_log H1 H2 :=
  match goal with
  | |- context [main ?u ?e NoClick (world ?s ?lg)] =>
      destruct (main_no_click u e s lg) as (? & -> & H1 & H2);
      unfold initialized;
      cbn [fst snd ss log or_default logged_in username topic
           conversation wallet_credits chats_used crisis_mode
           topic_welcome_shown]
  end.

Lemma client_calls_effects (env : Env) (messages : list Message) :
  client_calls (client_effects env messages) = [messages].
Proof.
  unfold client_effects. destruct (secrets env); [reflexivity|].
  destruct (negb (truthy_key (found_key env))); [reflexivity|].
  destruct (http env messages); reflexivity.
Qed.

Lemma http_posts_effects (env : Env) (messages : list Message) :
  http_posts (client_effects env messages)
  = if truthy_key (found_key env) then [messages] else [].
Proof.
  unfold client_effects, found_key. destruct (secrets env); [reflexivity|].
  destruct (truthy_key (if negb (truthy_key key) then session_key env else key));
    cbn; [|reflexivity].
  destruct (http env messages); reflexivity.
Qed.

Lemma interact_send_answered (env : Env) (text u t : pystr) c wc cu tw :
  secrets_readable env -> (0 < wc)%Z -> ordinary ul text ->
  let sent := c ++ [msg user (strip text)] in
  exists lg,
    interact ul env (ClickSend text) (full true u (Some t) c wc cu false tw)
    = (Val tt,
       world (full true u (Some t)
                   (sent ++ [msg assistant (client_reply env sent)])
                   (balance_after_chat cu wc) (cu + 1)%Z false tw) lg)
    /\ client_calls lg = [sent]
    /\ http_posts lg
       = if truthy_key (found_key env) then [sent] else [].
Proof.
  intros Hs Hw [Hb Hk] sent. unfold interact, run_script.
  rewrite main_chat, Hb by assumption.
  rewrite send_message_answered
    by (try assumption; now apply credits_not_exhausted).
  second_pass_log H1 H2. eexists. split; [reflexivity|].
  rewrite H1, H2. cbn [app].
  now rewrite client_calls_effects, http_posts_effects.
Qed.

Lemma interact_send_raises (env : Env) (e text u t : pystr) c wc cu tw :
  secrets env = SecretsMissing e -> (0 < wc)%Z -> ordinary ul text ->
  let sent := c ++ [msg user (strip text)] in
  interact ul env (ClickSend text) (full true u (Some t) c wc cu false tw)
  = (Raise e, world (full true u (Some t) sent wc cu false tw) [ClientCall sent]).
Proof.
  intros Hs Hw [Hb Hk] sent. unfold interact, run_script.
  rewrite main_chat, Hb by assumption.
  rewrite send_message_raises with (e := e)
    by (try assumption; now apply credits_not_exhausted).
  reflexivity.
Qed.

(** An ordinary send with credit left enters the chat client once, with the
    conversation extended by the user message, and posts that request when a
    key is found. *)
Lemma interact_send_calls (env : Env) (text u t : pystr) c wc cu tw :
  (0 < wc)%Z -> ordinary ul text ->
  let sent := c ++ [msg user (strip text)] in
  exists r s' lg,
    interact ul env (ClickSend text) (full true u (Some t) c wc cu false tw)
    = (r, world s' lg)
    /\ client_calls lg = [sent]
    /\ http_posts lg = if truthy_key (found_key env) then [sent] else [].
Proof.
  intros Hw Ho sent. destruct (secrets env) as [e|key] eqn:S.
  - rewrite interact_send_raises with (e := e) by assumption.
    eexists _, _, _. split; [reflexivity|]. split; [reflexivity|].
    unfold found_key. now rewrite S.
  - destruct (@interact_send_answered env text u t c wc cu tw) as (lg & E & H1 & H2);
      [now exists key | assumption | assumption |].
    rewrite E. now eexists _, _, _.
Qed.

Lemma secrets_readable_not_missing (env : Env) :
  secrets_readable env -> secrets_missing env = false.
Proof. intros [key K]. unfold secrets_missing. now rewrite K. Qed.

Lemma interact_send_crisis (env : Env) (text u t : pystr) c wc cu tw :
  (0 < wc)%Z -> truthy (strip text) = true ->
  contains_crisis_keywords ul text = true ->
  exists lg,
    interact ul env (ClickSend text) (full true u (Some t) c wc cu false tw)
    = (Val tt,
       world (full true u (Some t) (c ++ [msg user (strip text)])
                   wc cu true tw) lg)
    /\ client_calls lg = [] /\ http_posts lg = [].
Proof.
  intros Hw Hb Hk. unfold interact, run_script.
  rewrite main_chat, Hb by assumption.
  rewrite send_message_crisis by assumption.
  second_pass_log H1 H2. eexists. split; [reflexivity|]. now rewrite H1, H2.
Qed.

Lemma interact_send_paywall (env : Env) (text u t : pystr) c wc cu tw :
  (wc <= 0)%Z ->
  interact ul env (ClickSend text) (full true u (Some t) c wc cu false tw)
  = (Val tt, world (full true u (Some t) c wc cu false tw) [no_credits_warning]).
Proof.
  intros Hw. unfold interact, run_script. now rewrite main_paywall.
Qed.

Lemma interact_topic (env : Env) (idx : nat) (name u : pystr) c wc cu cm tw :
  nth_error topics idx = Some name ->
  exists lg,
    interact ul env (ClickTopic idx) (full true u None c wc cu cm tw)
    = (Val tt,
       world (full true u (Some name)
                   [system_message;
                    msg assistant (topic_welcome env name)]
                   wc cu false true) lg)
    /\ client_calls lg = [welcome_request name].
Proof.
  intros Hn. unfold interact, run_script. rewrite main_topic, Hn.
  second_pass_log H1 H2. eexists. split; [reflexivity|].
  rewrite H1. cbn [app]. apply client_calls_effects.
Qed.

Lemma interact_login (env : Env) (name u : pystr) t c wc cu cm tw :
  truthy (strip name) = true ->
  exists lg,
    interact ul env (ClickLogin name) (full false u t c wc cu cm tw)
    = (Val tt, world (full true (strip name) t c wc cu cm tw) lg).
Proof.
  intros Hn. unfold interact, run_script. rewrite main_login, Hn.
  second_pass_log H1 H2. eexists. reflexivity.
Qed.

(** A store whose keys are all present is one of the [full] ones. *)
Lemma populated_full (s : SessionState) :
  populated s ->
  exists l u t c wc cu cm tw, s = full l u t c wc cu cm tw.
Proof.
  intros H. rewrite <- H. unfold initialized. now repeat eexists.
Qed.

Lemma interact_initialized (env : Env) (action : Action) (s : SessionState) :
  interact ul env action s = interact ul env action (initialized s).
Proof.
  unfold interact, run_script. now rewrite main_initialized.
Qed.
End Interactions.

(** ** Invariants of a session *)

Section Invariants.
Variable ul : pystr -> N -> pystr -> pystr.

Lemma balance_after_chat_bounds (cu wc : Z) :
  (0 <= wc)%Z ->
  (0 <= balance_after_chat cu wc)%Z
  /\ ((cu + 1 <= FREE_CHAT_LIMIT)%Z -> balance_after_chat cu wc = wc)
  /\ ((FREE_CHAT_LIMIT < cu + 1)%Z -> balance_after_chat cu wc = Z.max 0 (wc - 1)).
Proof.
  intros H. unfold balance_after_chat.
  destruct (cu + 1 >? FREE_CHAT_LIMIT)%Z eqn:E.
  - apply Z.gtb_lt in E. repeat split; lia.
  - assert (cu + 1 <= FREE_CHAT_LIMIT)%Z by (rewrite Z.gtb_ltb in E; apply Z.ltb_ge in E; lia).
    repeat split; lia.
Qed.

Lemma transition_populated (faulty : bool) (s s' : SessionState) :
  populated s -> transition faulty s s' -> populated s'.
Proof. intros H T. destruct T; try reflexivity. exact H. Qed.

Lemma transition_ledger (faulty : bool) (s s' : SessionState) :
  ledger_ok s -> transition faulty s s' -> ledger_ok s'.
Proof.
  intros (w & k & Hw & Hk & H1 & H2 & H3) T.
  destruct T; cbn in Hw, Hk; try injection Hw as <-; try injection Hk as <-.
  - now exists w, k.
  - now exists wc, cu.
  - now exists wc, cu.
  - now exists wc, cu.
  - destruct (balance_after_chat_bounds cu H1) as (B1 & B2 & B3).
    exists (balance_after_chat cu wc), (cu + 1)%Z.
    repeat split; lia.
  - now exists wc, cu.
  - exists (wc + 1)%Z, cu. repeat split; lia.
  - exists FREE_CHAT_LIMIT, 0%Z. unfold FREE_CHAT_LIMIT. repeat split; lia.
Qed.

Lemma nth_error_0_app {A : Type} (l l' : list A) (x : A) :
  nth_error l 0 = Some x -> nth_error (l ++ l') 0 = Some x.
Proof. destruct l; [discriminate | exact (fun H => H)]. Qed.

Lemma transition_system_first (faulty : bool) (s s' : SessionState) :
  system_first s -> transition faulty s s' -> system_first s'.
Proof.
  intros H T. destruct T; intros t' Ht'; cbn in Ht' |- *;
    try discriminate; try (exact (H t' Ht')).
  - eexists. split; reflexivity.
  - destruct (H t eq_refl) as (conv & E & Hc). injection E as <-.
    eexists. split; [reflexivity|]. now apply nth_error_0_app.
  - destruct (H t eq_refl) as (conv & E & Hc). injection E as <-.
    eexists. split; [reflexivity|]. now apply nth_error_0_app, nth_error_0_app.
  - destruct (H t eq_refl) as (conv & E & Hc). injection E as <-.
    eexists. split; [reflexivity|]. now apply nth_error_0_app.
Qed.

Lemma fresh_sound : sound fresh_state.
Proof.
  repeat split.
  - exists FREE_CHAT_LIMIT, 0%Z. unfold FREE_CHAT_LIMIT. cbn. repeat split; lia.
  - intros t Ht. discriminate.
Qed.

Lemma transition_sound (faulty : bool) (s s' : SessionState) :
  sound s -> transition faulty s s' -> sound s'.
Proof.
  intros (P & L & F) T. repeat split.
  - eapply transition_populated; eassumption.
  - eapply transition_ledger; eassumption.
  - eapply transition_system_first; eassumption.
Qed.

Lemma after_sound (env : Env) (action : Action) (s : SessionState) :
  sound (initialized s) -> sound (after ul env action s).
Proof.
  intros H. eapply transition_sound; [exact H|].
  apply interact_transition.
Qed.

Lemma reachable_sound (s : SessionState) :
  reachable ul s -> s = empty_state \/ sound s.
Proof.
  induction 1 as [|s env action _ [-> | IH]].
  - now left.
  - right. apply after_sound. exact fresh_sound.
  - right. apply after_sound. destruct IH as (P & ?). now rewrite P.
Qed.
End Invariants.

(** ** The credit ledger *)

Section Ledger.
Variable ul : pystr -> N -> pystr -> pystr.

Lemma add_credit_run l u t c wc cu cm tw lg :
  add_credit (world (full l u t c wc cu cm tw) lg)
  = (Val tt,
     world (full l u t c (wc + 1)%Z cu cm tw)
           (lg ++ [Success (py "1 chat credit added! You can now continue chatting.")])).
Proof. reflexivity. Qed.

Lemma ledger_ops_run (ops : list LedgerOp) l u t c wc cu cm tw lg :
  (0 <= wc)%Z ->
  exists wc' cu' lg',
    for_each ops ledger_op (world (full l u t c wc cu cm tw) lg)
    = (Val tt, world (full l u t c wc' cu' cm tw) lg')
    /\ (0 <= wc')%Z.
Proof.
  revert wc cu lg; induction ops as [|op ops IH]; intros wc cu lg H.
  - exists wc, cu, lg. now split.
  - cbn [for_each]. unfold bind. destruct op; cbn [ledger_op].
    + rewrite record_chat_run.
      apply IH. now apply balance_after_chat_bounds.
    + rewrite add_credit_run. apply IH. lia.
Qed.
End Ledger.

(** C3. From the initial state, whatever ledger operations follow, the
    credit balance is never negative, and the same holds along every
    session; [record_chat] lowers the balance, by one and not below zero,
    only when [chats_used], which it has just incremented, exceeds the free
    quota Q = 5, and leaves the balance alone while that [chats_used] is at
    most Q. *)
Theorem C3_balance_never_negative (ul : pystr -> N -> pystr -> pystr) :
  (forall ops : list LedgerOp,
      exists s' lg wc,
        for_each ops ledger_op (world fresh_state []) = (Val tt, world s' lg)
        /\ wallet_credits s' = Some wc /\ (0 <= wc)%Z)
  /\ (forall s wc,
         reachable ul s -> wallet_credits s = Some wc -> (0 <= wc)%Z)
  /\ (forall l u t c wc cu cm tw lg,
         exists wc',
           record_chat (world (full l u t c wc cu cm tw) lg)
           = (Val tt, world (full l u t c wc' (cu + 1)%Z cm tw) lg)
           /\ ((cu + 1 <= FREE_CHAT_LIMIT)%Z -> wc' = wc)
           /\ ((FREE_CHAT_LIMIT < cu + 1)%Z -> wc' = Z.max 0 (wc - 1))
           /\ (wc' <> wc -> (FREE_CHAT_LIMIT < cu + 1)%Z))
  /\ FREE_CHAT_LIMIT = 5%Z.
Proof.
  split; [|split; [|split]].
  - intros ops.
    destruct (@ledger_ops_run ops false [] None [] FREE_CHAT_LIMIT 0%Z false false [])
      as (wc' & cu' & lg' & E & H); [unfold FREE_CHAT_LIMIT; lia|].
    eexists _, lg', wc'. split; [exact E|]. now split.
  - intros s wc R Hw. destruct (reachable_sound R) as [-> | (_ & L & _)].
    + discriminate.
    + destruct L as (w & k & Hw' & _ & H & _). congruence.
  - intros l u t c wc cu cm tw lg. exists (balance_after_chat cu wc).
    split; [apply record_chat_run|].
    unfold balance_after_chat.
    destruct (cu + 1 >? FREE_CHAT_LIMIT)%Z eqn:E.
    + apply Z.gtb_lt in E. repeat split; intros; try lia.
    + rewrite Z.gtb_ltb in E. apply Z.ltb_ge in E. repeat split; intros; try lia.
  - reflexivity.
Qed.

(** C7. In every state a session can reach, a chosen topic comes with a
    conversation whose entry 0 is the system-prompt message; and every
    interaction (topic selection, send, crisis handling, refused send, top-up,
    logout) keeps it so. *)
Theorem C7_system_prompt_first (ul : pystr -> N -> pystr -> pystr) :
  (forall s t,
      reachable ul s -> topic s = Some (Some t) ->
      exists conv,
        conversation s = Some conv /\ nth_error conv 0 = Some system_message)
  /\ (forall env action s,
         system_first (initialized s) ->
         system_first (after ul env action s)).
Proof.
  split.
  - intros s t R Ht. destruct (reachable_sound R) as [-> | (_ & _ & F)].
    + discriminate.
    + exact (F t Ht).
  - intros env action s H. eapply transition_system_first; [exact H|].
    apply interact_transition.
Qed.

(** ** Sends on the chat screen *)

Section Sends.
Variable ul : pystr -> N -> pystr -> pystr.

Lemma chatting_full (s : SessionState) :
  populated s -> chatting s ->
  exists u t c wc cu tw,
    s = full true u (Some t) c wc cu false tw /\ (0 < wc)%Z.
Proof.
  intros P (Hl & (t & Ht) & Hc & wc & Hw & Hpos).
  destruct (populated_full P) as (l & u & t' & c & wc' & cu & cm & tw & ->).
  cbn in Hl, Ht, Hc, Hw.
  injection Hl as ->. injection Ht as ->. injection Hc as ->. injection Hw as ->.
  now exists u, t, c, wc, cu, tw.
Qed.

Lemma client_reply_failure (env : Env) (messages : list Message) :
  client_fails env messages ->
  client_reply env messages
  = if truthy_key (found_key env)
    then API_FAILURE_REPLY else NO_KEY_REPLY.
Proof.
  unfold client_fails, client_reply.
  destruct (truthy_key (found_key env)); cbn [negb].
  - intros [H | [e ->]]; [discriminate | reflexivity].
  - reflexivity.
Qed.
End Sends.

(** C5. A send on the chat screen whose text trips the crisis matcher
    appends the user message to the conversation and sets [crisis_mode];
    the interaction completes without entering the chat client and without
    any HTTP request, and the rest of the session is as before. *)
Theorem C5_crisis_send_bypasses_client
    (ul : pystr -> N -> pystr -> pystr) (env : Env) (text : pystr)
    (s : SessionState) :
  populated s -> chatting s ->
  truthy (strip text) = true ->
  contains_crisis_keywords ul text = true ->
  exists conv w',
    conversation s = Some conv
    /\ interact ul env (ClickSend text) s = (Val tt, w')
    /\ ss w' = set_crisis_mode (Some true)
                 (set_conversation (Some (conv ++ [msg user (strip text)])) s)
    /\ conversation (ss w') = Some (conv ++ [msg user (strip text)])
    /\ crisis_mode (ss w') = Some true
    /\ client_calls (log w') = []
    /\ http_posts (log w') = [].
Proof.
  intros P C Hb Hk.
  destruct (chatting_full P C) as (u & t & c & wc & cu & tw & -> & Hw).
  destruct (@interact_send_crisis ul env text u t c wc cu tw Hw Hb Hk)
    as (lg & E & H1 & H2).
  exists c, (world (full true u (Some t) (c ++ [msg user (strip text)]) wc cu true tw) lg).
  rewrite E. now repeat split.
Qed.

(** C6. Choosing any of the five topics on the topic screen replaces the
    conversation by exactly two entries, the system prompt and then the
    assistant's welcome message, records the topic, and sets [crisis_mode]
    to false.  The welcome is what [get_topic_welcome] returns: the chat
    client's reply to the topic's request, or the static line when the
    client raises, which it does when the secrets cannot be read. *)
Theorem C6_topic_selection_resets
    (ul : pystr -> N -> pystr -> pystr) (env : Env) (idx : nat)
    (s : SessionState) :
  logged_in s = Some true -> topic s = Some None ->
  (idx < 5)%nat ->
  exists name welcome w',
    nth_error topics idx = Some name
    /\ interact ul env (ClickTopic idx) s = (Val tt, w')
    /\ welcome = topic_welcome env name
    /\ conversation (ss w')
       = Some [msg system SYSTEM_PROMPT; msg assistant welcome]
    /\ crisis_mode (ss w') = Some false
    /\ topic (ss w') = Some (Some name).
Proof.
  intros Hl Ht Hi.
  assert (exists name, nth_error topics idx = Some name) as [name Hn].
  { do 5 (destruct idx as [|idx]; [eexists; reflexivity|]). lia. }
  rewrite interact_initialized. unfold initialized. rewrite Hl, Ht.
  cbn [or_default].
  destruct (@interact_topic ul env idx name (or_default (username s) [])
              (or_default (conversation s) [])
              (or_default (wallet_credits s) FREE_CHAT_LIMIT)
              (or_default (chats_used s) 0%Z)
              (or_default (crisis_mode s) false)
              (or_default (topic_welcome_shown s) false) Hn) as (lg & E & _).
  eexists name, _, _. split; [exact Hn|]. split; [exact E|]. now repeat split.
Qed.


(** ** The refusal of the send handler is never reached *)

Section Refusal.
Variable ul : pystr -> N -> pystr -> pystr.

Lemma main_no_click_effects (env : Env) (s : SessionState) (lg : list Effect) :
  forall e,
    In e (log (snd (main ul env NoClick (world s lg)))) ->
    In e lg \/ e = no_credits_warning.
Proof.
  rewrite main_initialized. unfold initialized.
  generalize (or_default (logged_in s) false) (or_default (username s) [])
    (or_default (topic s) None) (or_default (conversation s) [])
    (or_default (wallet_credits s) FREE_CHAT_LIMIT) (or_default (chats_used s) 0%Z)
    (or_default (crisis_mode s) false) (or_default (topic_welcome_shown s) false).
  intros l u t c wc cu cm tw e.
  destruct l; [|rewrite main_login_other by discriminate; now left].
  destruct t as [t|]; [|rewrite main_topic_other by discriminate; now left].
  destruct cm; [rewrite main_crisis; now left|].
  destruct (Z_le_gt_dec wc 0) as [Hw|Hw].
  - rewrite main_paywall by assumption. cbn [snd log]. intros H.
    apply in_app_or in H as [H | [<- | []]]; [now left | now right].
  - rewrite main_chat by lia. now left.
Qed.

Lemma client_effects_no_warning (env : Env) (messages : list Message) (t : pystr) :
  ~ In (Warning t) (client_effects env messages).
Proof.
  unfold client_effects. destruct (secrets env).
  - cbn. intros [H | []]; discriminate.
  - destruct (negb (truthy_key (found_key env))).
    + cbn. intros [H | [H | []]]; discriminate.
    + destruct (http env messages); cbn; intuition discriminate.
Qed.

Lemma no_credits_is_not_refusal : no_credits_warning <> refusal_warning.
Proof. intros H. vm_compute in H. discriminate. Qed.

Lemma first_run_never_refuses (env : Env) (action : Action) (s : SessionState) :
  ~ In refusal_warning (log (snd (run_script ul env action s))).
Proof.
  unfold run_script. rewrite main_initialized. unfold initialized.
  generalize (or_default (logged_in s) false) (or_default (username s) [])
    (or_default (topic s) None) (or_default (conversation s) [])
    (or_default (wallet_credits s) FREE_CHAT_LIMIT) (or_default (chats_used s) 0%Z)
    (or_default (crisis_mode s) false) (or_default (topic_welcome_shown s) false).
  intros l u t c wc cu cm tw.
  destruct l.
  2:{ destruct action;
      try (rewrite main_login_other by discriminate; exact (fun H => H)).
      rewrite main_login. destruct (truthy (strip username_text)).
      - exact (fun H => H).
      - cbn. intros [H | []]. vm_compute in H. discriminate. }
  destruct t as [t|].
  2:{ destruct action;
      try (rewrite main_topic_other by discriminate; exact (fun H => H)).
      rewrite main_topic. destruct (nth_error topics idx).
      - cbn [snd log app]. apply client_effects_no_warning.
      - exact (fun H => H). }
  destruct cm.
  { rewrite main_crisis. destruct action; exact (fun H => H). }
  destruct (Z_le_gt_dec wc 0) as [Hw|Hw].
  { rewrite main_paywall by assumption.
    destruct action; cbn; intuition (try discriminate);
      match goal with H : _ = refusal_warning |- _ => vm_compute in H; discriminate end. }
  rewrite main_chat by lia.
  destruct action; try exact (fun H => H).
  destruct (truthy (strip user_input)); [|exact (fun H => H)].
  destruct (contains_crisis_keywords ul user_input) eqn:K.
  - rewrite send_message_crisis by assumption. exact (fun H => H).
  - rewrite send_message_sent
      by (try assumption; apply credits_not_exhausted; lia).
    unfold refusal_warning.
    destruct (secrets env); cbn [snd log app]; apply client_effects_no_warning.
Qed.

(** No interaction, from any store, ends with the refusal of the send
    handler on the screen. *)
Lemma interact_never_refuses (env : Env) (action : Action) (s : SessionState) :
  ~ In refusal_warning (log (snd (interact ul env action s))).
Proof.
  unfold interact.
  pose proof (@first_run_never_refuses env action s) as H.
  destruct (run_script ul env action s) as [[ | | ] [s' lg]]; try exact H.
  intros Hin. apply main_no_click_effects in Hin as [Hin | Hin].
  - exact (H Hin).
  - now apply no_credits_is_not_refusal.
Qed.
End Refusal.

(** ** Chat eligibility *)

Section Eligibility.
Variable ul : pystr -> N -> pystr -> pystr.

Lemma can_chat_spec (cu wc : Z) :
  can_chat cu wc = true <-> (cu < FREE_CHAT_LIMIT)%Z \/ (0 < wc)%Z.
Proof.
  unfold can_chat, credit_exhausted.
  rewrite negb_true_iff, andb_false_iff, Z.leb_gt, Z.leb_gt. tauto.
Qed.

Lemma can_chat_false (cu wc : Z) :
  can_chat cu wc = false <-> (FREE_CHAT_LIMIT <= cu)%Z /\ (wc <= 0)%Z.
Proof.
  unfold can_chat, credit_exhausted.
  rewrite negb_false_iff, andb_true_iff, Z.leb_le, Z.leb_le. tauto.
Qed.

Lemma chat_screen_full (s : SessionState) :
  populated s -> on_chat_screen s -> crisis_mode s = Some false ->
  exists u t c wc cu tw, s = full true u (Some t) c wc cu false tw.
Proof.
  intros P (Hl & t & Ht) Hc.
  destruct (populated_full P) as (l & u & t' & c & wc & cu & cm & tw & ->).
  cbn in Hl, Ht, Hc. injection Hl as ->. injection Ht as ->. injection Hc as ->.
  now exists u, t, c, wc, cu, tw.
Qed.

(** On the chat screen, out of crisis mode, an ordinary send is blocked
    exactly when no credit is left. *)
Lemma send_blocked_iff (env : Env) (text : pystr) (s : SessionState) (wc : Z) :
  populated s -> on_chat_screen s -> crisis_mode s = Some false ->
  wallet_credits s = Some wc -> ordinary ul text ->
  send_blocked ul env text s <-> (wc <= 0)%Z.
Proof.
  intros P O C Hw Ho.
  destruct (chat_screen_full P O C) as (u & t & c & wc' & cu & tw & ->).
  cbn in Hw. injection Hw as ->. unfold send_blocked.
  destruct (Z_le_gt_dec wc 0) as [H|H].
  - rewrite interact_send_paywall by assumption. cbn. tauto.
  - destruct (@interact_send_calls ul env text u t c wc cu tw)
      as (r & s' & lg & E & H1 & _); [lia | assumption |].
    rewrite E. cbn [snd log]. rewrite H1. split; [discriminate | lia].
Qed.
End Eligibility.

(** C1. [can_chat] is true while [chats_used] lies in [0, Q) whatever the
    balance, and from Q on exactly when the balance is positive; and in
    every state a session can reach, the chat screen (with a topic chosen and
    out of crisis mode) keeps an ordinary send from the chat client exactly
    when [can_chat] is false. *)
Theorem C1_chat_eligibility (ul : pystr -> N -> pystr -> pystr) :
  (forall cu wc,
      ((0 <= cu < FREE_CHAT_LIMIT)%Z -> can_chat cu wc = true)
      /\ ((FREE_CHAT_LIMIT <= cu)%Z -> (can_chat cu wc = true <-> (0 < wc)%Z)))
  /\ (forall env text s wc cu,
         reachable ul s -> on_chat_screen s -> crisis_mode s = Some false ->
         wallet_credits s = Some wc -> chats_used s = Some cu ->
         ordinary ul text ->
         (send_blocked ul env text s <-> can_chat cu wc = false)).
Proof.
  split.
  - intros cu wc. split.
    + intros H. apply can_chat_spec. lia.
    + intros H. rewrite can_chat_spec. lia.
  - intros env text s wc cu R O C Hw Hu Ho.
    destruct (reachable_sound R) as [-> | (P & L & _)]; [discriminate|].
    rewrite (send_blocked_iff env P O C Hw Ho), can_chat_false.
    destruct L as (w & k & Hw' & Hk' & H1 & H2 & H3).
    assert (w = wc) by congruence. assert (k = cu) by congruence. subst.
    lia.
Qed.


(** ** Ten turns on a new session *)

Section Turns.
Variable ul : pystr -> N -> pystr -> pystr.

Lemma after_send_answered (env : Env) (text u t : pystr) c wc cu tw :
  secrets_readable env -> (0 < wc)%Z -> ordinary ul text ->
  after ul env (ClickSend text) (full true u (Some t) c wc cu false tw)
  = full true u (Some t)
         ((c ++ [msg user (strip text)])
            ++ [msg assistant (client_reply env (c ++ [msg user (strip text)]))])
         (balance_after_chat cu wc) (cu + 1)%Z false tw.
Proof.
  intros Hs Hw Ho.
  destruct (@interact_send_answered ul env text u t c wc cu tw Hs Hw Ho)
    as (lg & E & _).
  unfold after. now rewrite E.
Qed.

Lemma balance_countdown (cu : Z) :
  (0 <= cu <= 9)%Z ->
  balance_after_chat cu (Z.min 5 (10 - cu)) = Z.min 5 (10 - (cu + 1)).
Proof.
  intros H. unfold balance_after_chat, FREE_CHAT_LIMIT.
  destruct (cu + 1 >? 5)%Z eqn:E.
  - apply Z.gtb_lt in E. lia.
  - rewrite Z.gtb_ltb in E. apply Z.ltb_ge in E. lia.
Qed.

(** Starting with the balance that [cu] answered chats leave, further
    ordinary sends, made while the secrets are readable, are all answered as
    long as no more than ten have been made in all. *)
Lemma turns_run (turns : list (Env * pystr)) (u t : pystr) c cu tw :
  Forall (fun turn => secrets_readable (fst turn)) turns ->
  Forall (fun turn => ordinary ul (snd turn)) turns ->
  (0 <= cu)%Z -> (cu + Z.of_nat (List.length turns) <= 10)%Z ->
  exists c',
    interactions ul (sends turns)
      (full true u (Some t) c (Z.min 5 (10 - cu)) cu false tw)
    = full true u (Some t) c'
           (Z.min 5 (10 - (cu + Z.of_nat (List.length turns))))
           (cu + Z.of_nat (List.length turns))%Z false tw
    /\ List.length c' = (List.length c + 2 * List.length turns)%nat.
Proof.
  revert c cu; induction turns as [|[env text] turns IH]; intros c cu Hs Ho H0 Hn.
  - exists c. cbn [List.length Z.of_nat sends map interactions].
    rewrite Z.add_0_r. split; [reflexivity | lia].
  - inversion Hs as [|? ? Hs1 Hs2]; subst. cbn [fst] in Hs1.
    inversion Ho as [|? ? Ho1 Ho2]; subst. cbn [snd] in Ho1.
    cbn [List.length] in Hn |- *. rewrite Nat2Z.inj_succ in Hn |- *.
    cbn [sends map interactions].
    rewrite after_send_answered by (try assumption; lia).
    rewrite balance_countdown by lia.
    destruct (IH ((c ++ [msg user (strip text)])
                    ++ [msg assistant (client_reply env (c ++ [msg user (strip text)]))])
                 (cu + 1)%Z Hs2 Ho2) as (c' & E & L); [lia | lia |].
    exists c'. unfold sends in E. rewrite E. split.
    + f_equal; f_equal; lia.
    + rewrite L, !length_app. cbn [List.length]. lia.
Qed.

Lemma after_login_new (env : Env) (name : pystr) :
  truthy (strip name) = true ->
  after ul env (ClickLogin name) empty_state
  = full true (strip name) None [] FREE_CHAT_LIMIT 0%Z false false.
Proof.
  intros Hn. unfold after. rewrite interact_initialized.
  unfold initialized, empty_state.
  cbn [or_default logged_in username topic conversation wallet_credits
       chats_used crisis_mode topic_welcome_shown].
  destruct (@interact_login ul env name [] None [] FREE_CHAT_LIMIT 0%Z false false Hn)
    as (lg & ->).
  reflexivity.
Qed.

Lemma after_topic (env : Env) (idx : nat) (name u : pystr) c wc cu cm tw :
  nth_error topics idx = Some name ->
  after ul env (ClickTopic idx) (full true u None c wc cu cm tw)
  = full true u (Some name)
         [system_message; msg assistant (topic_welcome env name)]
         wc cu false true.
Proof.
  intros Hn. unfold after.
  destruct (@interact_topic ul env idx name u c wc cu cm tw Hn) as (lg & -> & _).
  reflexivity.
Qed.
End Turns.

(** C10. A new session is initialized with [wallet_credits] at the free
    quota Q = 5 and [chats_used] at 0.  After login and the choice of a
    topic, up to ten ordinary sends in a row, each made while the key lookup
    can read the secrets, are all answered with no top-up:
    after [k] of them [chats_used] is [k] and the balance is [min 5 (10 - k)],
    so the input stays open before the tenth, and after the tenth the balance
    is 0 and further sends are blocked. *)
Theorem C10_ten_turns_without_top_up (ul : pystr -> N -> pystr -> pystr) :
  (initialize_session_state (world empty_state []) = (Val tt, world fresh_state [])
   /\ wallet_credits fresh_state = Some FREE_CHAT_LIMIT
   /\ chats_used fresh_state = Some 0%Z
   /\ FREE_CHAT_LIMIT = 5%Z)
  /\ (forall env0 env1 name idx turns,
         truthy (strip name) = true -> (idx < 5)%nat ->
         Forall (fun turn => secrets_readable (fst turn)) turns ->
         Forall (fun turn => ordinary ul (snd turn)) turns ->
         (List.length turns <= 10)%nat ->
         let k := Z.of_nat (List.length turns) in
         let s := interactions ul
                    ((env0, ClickLogin name) :: (env1, ClickTopic idx) :: sends turns)
                    empty_state in
         chats_used s = Some k
         /\ wallet_credits s = Some (Z.min 5 (10 - k))
         /\ option_map (@List.length Message) (conversation s)
            = Some (2 + 2 * List.length turns)%nat
         /\ crisis_mode s = Some false
         /\ ((List.length turns < 10)%nat -> chatting s)
         /\ ((List.length turns = 10)%nat ->
             forall env text,
               send_blocked ul env text s /\ after ul env (ClickSend text) s = s)).
Proof.
  split; [repeat split|].
  intros env0 env1 name idx turns Hn Hi Hs Ho Hk k s.
  assert (exists topic_name, nth_error topics idx = Some topic_name) as [tn Ht].
  { do 5 (destruct idx as [|idx]; [eexists; reflexivity|]). lia. }
  assert (exists c',
             s = full true (strip name) (Some tn) c' (Z.min 5 (10 - k)) k false true
             /\ List.length c' = (2 + 2 * List.length turns)%nat) as (c' & E & L).
  { subst s. cbn [interactions].
    rewrite after_login_new by assumption.
    rewrite (@after_topic ul env1 idx tn _ _ _ _ _ _ Ht).
    change FREE_CHAT_LIMIT with (Z.min 5 (10 - 0)).
    destruct (@turns_run ul turns (strip name) tn
                [system_message; msg assistant (topic_welcome env1 tn)]
                0%Z true Hs Ho) as (c' & E & L); [lia | lia |].
    exists c'. rewrite E. split; [reflexivity | exact L]. }
  rewrite E. cbn [chats_used wallet_credits conversation crisis_mode option_map].
  repeat split; try (now rewrite L).
  - exists tn. reflexivity.
  - exists (Z.min 5 (10 - k)). split; [reflexivity | lia].
  - unfold send_blocked. rewrite interact_send_paywall by lia. reflexivity.
  - unfold after. rewrite interact_send_paywall by lia. reflexivity.
Qed.

(** ** The welcome message when the chat client fails *)

Section Welcome.
Variable ul : pystr -> N -> pystr -> pystr.

Lemma fallbacks_differ_from_welcome :
  API_FAILURE_REPLY <> STATIC_WELCOME /\ NO_KEY_REPLY <> STATIC_WELCOME.
Proof. split; intros H; vm_compute in H; discriminate. Qed.

(** For a topic of the table, [get_topic_welcome] hands on whatever the
    chat client returned; its handler with the static line runs only when
    the client raises, which is when the secrets cannot be read. *)
Lemma get_topic_welcome_is_reply (env : Env) (name : pystr) (w : World) :
  In name topics ->
  fst (get_topic_welcome env name w) = Val (topic_welcome env name).
Proof.
  intros H. erewrite get_topic_welcome_run by (apply topic_prompt_found, H).
  reflexivity.
Qed.

Lemma topic_welcome_readable (env : Env) (name : pystr) :
  secrets_readable env ->
  topic_welcome env name = client_reply env (welcome_request name).
Proof. intros [key K]. unfold topic_welcome. now rewrite K. Qed.

Lemma topic_welcome_unreadable (env : Env) (e name : pystr) :
  secrets env = SecretsMissing e -> topic_welcome env name = STATIC_WELCOME.
Proof. intros K. unfold topic_welcome. now rewrite K. Qed.

Lemma interactions_reachable (steps : list (Env * Action)) (s : SessionState) :
  reachable ul s -> reachable ul (interactions ul steps s).
Proof.
  revert s; induction steps as [|[env action] steps IH]; intros s R.
  - exact R.
  - cbn [interactions]. apply IH. now constructor.
Qed.

Lemma interactions_reachable_in (kind : Env -> Prop)
    (steps : list (Env * Action)) (s : SessionState) :
  Forall (fun step => kind (fst step)) steps ->
  reachable_in ul kind s -> reachable_in ul kind (interactions ul steps s).
Proof.
  revert s; induction steps as [|[env action] steps IH]; intros s K R.
  - exact R.
  - inversion K as [|? ? K1 K2]; subst. cbn [interactions]. apply IH.
    + exact K2.
    + now constructor.
Qed.

Lemma reachable_in_reachable (kind : Env -> Prop) (s : SessionState) :
  reachable_in ul kind s -> reachable ul s.
Proof. induction 1; now constructor. Qed.
End Welcome.

(** C2, evaluated on the script.  Topic selection seeds the conversation
    with the system prompt and one welcome message.  When the chat client
    fails by returning one of its fallback strings, because the HTTP exchange
    raises (API error, timeout, malformed payload) or because the readable
    secrets and the session hold no usable key, that welcome message is the
    client's own failure string, which is not the static welcome line.  The
    static line is seeded when the client itself raises, which it does when
    the secrets cannot be read. *)
Theorem C2_welcome_after_client_failure
    (ul : pystr -> N -> pystr -> pystr) (env : Env) (idx : nat) (name : pystr)
    (s : SessionState) :
  logged_in s = Some true -> topic s = Some None ->
  nth_error topics idx = Some name ->
  exists welcome,
    conversation (after ul env (ClickTopic idx) s)
    = Some [system_message; msg assistant welcome]
    /\ (secrets_readable env -> client_fails env (welcome_request name) ->
        welcome = (if truthy_key (found_key env)
                   then API_FAILURE_REPLY else NO_KEY_REPLY)
        /\ welcome <> STATIC_WELCOME)
    /\ (forall e, secrets env = SecretsMissing e -> welcome = STATIC_WELCOME).
Proof.
  intros Hl Ht Hn. unfold after.
  rewrite interact_initialized. unfold initialized. rewrite Hl, Ht.
  cbn [or_default].
  destruct (@interact_topic ul env idx name (or_default (username s) [])
              (or_default (conversation s) [])
              (or_default (wallet_credits s) FREE_CHAT_LIMIT)
              (or_default (chats_used s) 0%Z)
              (or_default (crisis_mode s) false)
              (or_default (topic_welcome_shown s) false) Hn) as (lg & -> & _).
  eexists. split; [reflexivity|]. split.
  - intros Hs Hf. rewrite (topic_welcome_readable name Hs).
    rewrite (client_reply_failure Hf). split; [reflexivity|].
    destruct fallbacks_differ_from_welcome.
    now destruct (truthy_key (found_key env)).
  - intros e K. now apply topic_welcome_unreadable with (e := e).
Qed.

(** ** The claims on sample sessions *)

Lemma C2_welcome_after_timeout :
  conversation (after keep_unicode env_timeout (ClickTopic 2) at_topic_screen)
  = Some [system_message; msg assistant API_FAILURE_REPLY]
  /\ API_FAILURE_REPLY <> STATIC_WELCOME
  /\ conversation (after keep_unicode env_no_key (ClickTopic 2) at_topic_screen)
     = Some [system_message; msg assistant NO_KEY_REPLY]
  /\ NO_KEY_REPLY <> STATIC_WELCOME
  /\ conversation (after keep_unicode env_no_secrets (ClickTopic 2) at_topic_screen)
     = Some [system_message; msg assistant STATIC_WELCOME].
Proof.
  destruct (@C2_welcome_after_client_failure keep_unicode env_timeout 2
              (py "Anxiety") at_topic_screen eq_refl eq_refl eq_refl)
    as (w1 & E1 & F1 & _).
  destruct (@C2_welcome_after_client_failure keep_unicode env_no_key 2
              (py "Anxiety") at_topic_screen eq_refl eq_refl eq_refl)
    as (w2 & E2 & F2 & _).
  destruct (@C2_welcome_after_client_failure keep_unicode env_no_secrets 2
              (py "Anxiety") at_topic_screen eq_refl eq_refl eq_refl)
    as (w3 & E3 & _ & M3).
  destruct F1 as (W1 & D1);
    [eexists; reflexivity | right; eexists; reflexivity |].
  destruct F2 as (W2 & D2); [eexists; reflexivity | left; reflexivity |].
  rewrite E1, E2, E3, (M3 _ eq_refl).
  cbn in W1, W2. rewrite W1 in D1 |- *. rewrite W2 in D2 |- *.
  now repeat split.
Defined.

Lemma C1_eligibility_on_samples :
  can_chat 3 0 = true
  /\ (can_chat 7 2 = true <-> (0 < 2)%Z)
  /\ (send_blocked keep_unicode (env_ok (py "I hear you.")) (py "hello") (alex_after 7)
      <-> can_chat 7 3 = false)
  /\ (send_blocked keep_unicode (env_ok (py "I hear you.")) (py "hello") (alex_after 10)
      <-> can_chat 10 0 = false).
Proof.
  destruct (C1_chat_eligibility keep_unicode) as (A & C).
  split; [|split; [|split]].
  - apply (proj1 (A 3%Z 0%Z)). unfold FREE_CHAT_LIMIT. lia.
  - apply (proj2 (A 7%Z 2%Z)). unfold FREE_CHAT_LIMIT. lia.
  - apply C.
    + apply interactions_reachable. constructor.
    + split; [vm_compute; reflexivity | eexists; vm_compute; reflexivity].
    + vm_compute. reflexivity.
    + vm_compute. reflexivity.
    + vm_compute. reflexivity.
    + split; reflexivity.
  - apply C.
    + apply interactions_reachable. constructor.
    + split; [vm_compute; reflexivity | eexists; vm_compute; reflexivity].
    + vm_compute. reflexivity.
    + vm_compute. reflexivity.
    + vm_compute. reflexivity.
    + split; reflexivity.
Defined.

Lemma C3_ledger_on_samples :
  (exists wc',
      record_chat (world (chat_state 5 5) []) = (Val tt, world (chat_state wc' 6) [])
      /\ wc' = 4%Z)
  /\ (exists wc',
         record_chat (world (chat_state 5 2) []) = (Val tt, world (chat_state wc' 3) [])
         /\ wc' = 5%Z)
  /\ (0 <= 0)%Z.
Proof.
  destruct (C3_balance_never_negative keep_unicode) as (_ & R & K & _).
  split; [|split].
  - destruct (K true (py "Alex") (Some (py "Anxiety"))
                [system_message; msg assistant (py "Welcome.")] 5%Z 5%Z false true [])
      as (wc' & E & _ & H & _).
    exists wc'. split; [exact E|]. rewrite H; reflexivity.
  - destruct (K true (py "Alex") (Some (py "Anxiety"))
                [system_message; msg assistant (py "Welcome.")] 5%Z 2%Z false true [])
      as (wc' & E & H & _).
    exists wc'. split; [exact E|]. apply H. discriminate.
  - apply (R (alex_after 10) 0%Z).
    + apply interactions_reachable. constructor.
    + vm_compute. reflexivity.
Defined.

Lemma C4_matcher_on_samples :
  contains_crisis_keywords keep_unicode (py "I want to KILL Myself") = true
  /\ contains_crisis_keywords keep_unicode (py "I feel a bit tired today") = false
  /\ contains_crisis_keywords keep_unicode (py "caf" ++ [233%N] ++ py " au lait") = false.
Proof.
  destruct (C4_keyword_matcher keep_unicode) as (Yes & _ & No & Ascii & _).
  split; [|split].
  - apply (Yes _ (py "kill myself")).
    + vm_compute. tauto.
    + exists (py "I want to "), (py "KILL Myself"), [].
      split; [reflexivity|].
      repeat (constructor; [repeat split; reflexivity|]). constructor.
  - apply No.
    + apply Ascii. reflexivity.
    + intros k Hin Hocc.
      assert (E : contains_crisis_keywords keep_unicode (py "I feel a bit tired today") = true)
        by exact (Yes _ k Hin Hocc).
      vm_compute in E. discriminate.
  - apply No.
    + apply keep_unicode_lowers_apart.
    + intros k Hin Hocc.
      assert (E : contains_crisis_keywords keep_unicode
                    (py "caf" ++ [233%N] ++ py " au lait") = true)
        by exact (Yes _ k Hin Hocc).
      vm_compute in E. discriminate.
Defined.

Lemma C5_crisis_send_on_sample :
  exists conv w',
    conversation (chat_state 5 0) = Some conv
    /\ interact keep_unicode (env_ok (py "I hear you."))
         (ClickSend (py "I want to kill myself")) (chat_state 5 0) = (Val tt, w')
    /\ ss w' = set_crisis_mode (Some true)
                 (set_conversation
                    (Some (conv ++ [msg user (strip (py "I want to kill myself"))]))
                    (chat_state 5 0))
    /\ conversation (ss w')
       = Some (conv ++ [msg user (strip (py "I want to kill myself"))])
    /\ crisis_mode (ss w') = Some true
    /\ client_calls (log w') = []
    /\ http_posts (log w') = [].
Proof.
  apply C5_crisis_send_bypasses_client.
  - reflexivity.
  - split; [reflexivity|]. split; [eexists; reflexivity|].
    split; [reflexivity|]. exists 5%Z. split; [reflexivity | lia].
  - reflexivity.
  - reflexivity.
Defined.

Lemma C6_topic_selection_on_sample :
  exists name welcome w',
    nth_error topics 2 = Some name
    /\ interact keep_unicode (env_ok (py "Welcome.")) (ClickTopic 2) at_topic_screen
       = (Val tt, w')
    /\ welcome = topic_welcome (env_ok (py "Welcome.")) name
    /\ conversation (ss w')
       = Some [msg system SYSTEM_PROMPT; msg assistant welcome]
    /\ crisis_mode (ss w') = Some false
    /\ topic (ss w') = Some (Some name).
Proof.
  apply C6_topic_selection_resets.
  - reflexivity.
  - reflexivity.
  - lia.
Defined.

Lemma C7_system_prompt_on_samples :
  (exists conv,
      conversation (alex_after 2) = Some conv
      /\ nth_error conv 0 = Some system_message)
  /\ system_first
       (after keep_unicode env_timeout (ClickSend (py "hello")) (chat_state 5 0)).
Proof.
  destruct (C7_system_prompt_first keep_unicode) as (R & P).
  split.
  - apply (R (alex_after 2) (py "Anxiety")).
    + apply interactions_reachable. constructor.
    + vm_compute. reflexivity.
  - apply P. intros t Ht. eexists. split; reflexivity.
Defined.



Lemma C10_ten_turns_on_sample :
  chats_used (alex_after 10) = Some 10%Z
  /\ wallet_credits (alex_after 10) = Some 0%Z
  /\ chatting (alex_after 9).
Proof.
  destruct (C10_ten_turns_without_top_up keep_unicode) as (_ & T).
  split; [|split].
  - apply (T (env_ok (py "Welcome.")) (env_ok (py "Welcome.")) (py "Alex") 2%nat
             (repeat (env_ok (py "I hear you."), py "hello") 10)).
    + reflexivity.
    + lia.
    + repeat (constructor; [eexists; reflexivity|]). constructor.
    + repeat (constructor; [split; reflexivity|]). constructor.
    + cbn. lia.
  - apply (T (env_ok (py "Welcome.")) (env_ok (py "Welcome.")) (py "Alex") 2%nat
             (repeat (env_ok (py "I hear you."), py "hello") 10)).
    + reflexivity.
    + lia.
    + repeat (constructor; [eexists; reflexivity|]). constructor.
    + repeat (constructor; [split; reflexivity|]). constructor.
    + cbn. lia.
  - apply (T (env_ok (py "Welcome.")) (env_ok (py "Welcome.")) (py "Alex") 2%nat
             (repeat (env_ok (py "I hear you."), py "hello") 9)).
    + reflexivity.
    + lia.
    + repeat (constructor; [eexists; reflexivity|]). constructor.
    + repeat (constructor; [split; reflexivity|]). constructor.
    + cbn. lia.
    + cbn. lia.
Defined.

(** * Further properties of the script *)

(** ** What an interaction leaves in the trace *)

Section Traces.
Variable ul : pystr -> N -> pystr -> pystr.

Ltac rerun_pass H1 H2 :=
  match goal with
  | |- context [main ?u ?e NoClick (world ?s ?lg)] =>
      destruct (main_no_click u e s lg) as (? & -> & H1 & H2);
      unfold initialized;
      cbn [fst snd ss log or_default logged_in username topic
           conversation wallet_credits chats_used crisis_mode
           topic_welcome_shown]
  end.

(** The trace of an interaction holds no call of the chat client, or holds
    one, made for a topic or for a send, with its HTTP request when a key is
    configured. *)
Lemma interact_calls (env : Env) (action : Action) (s : SessionState) :
  let lg := log (snd (interact ul env action s)) in
  (client_calls lg = [] /\ http_posts lg = [])
  \/ (exists m,
         client_calls lg = [m]
         /\ http_posts lg
            = (if truthy_key (found_key env) then [m] else [])
         /\ ((exists idx, action = ClickTopic idx)
             \/ (exists text, action = ClickSend text))).
Proof.
  unfold interact, run_script. rewrite main_initialized. unfold initialized.
  generalize (or_default (logged_in s) false) (or_default (username s) [])
    (or_default (topic s) None) (or_default (conversation s) [])
    (or_default (wallet_credits s) FREE_CHAT_LIMIT) (or_default (chats_used s) 0%Z)
    (or_default (crisis_mode s) false) (or_default (topic_welcome_shown s) false).
  intros l u t c wc cu cm tw.
  destruct l.
  2:{ destruct action;
      try (rewrite main_login_other by discriminate; left; now split).
      rewrite main_login. destruct (truthy (strip username_text)).
      - rerun_pass H1 H2. left. now rewrite H1, H2.
      - left. now split. }
  destruct t as [t|].
  2:{ destruct action;
      try (rewrite main_topic_other by discriminate; left; now split).
      rewrite main_topic. destruct (nth_error topics idx) as [name|].
      - rerun_pass H1 H2. right. exists (welcome_request name).
        rewrite H1, H2. cbn [app].
        rewrite client_calls_effects, http_posts_effects.
        repeat split. left. now exists idx.
      - left. now split. }
  destruct cm.
  { rewrite main_crisis.
    destruct action; try (left; now split);
      rerun_pass H1 H2; left; now rewrite H1, H2. }
  destruct (Z_le_gt_dec wc 0) as [Hw|Hw].
  { rewrite main_paywall by assumption.
    destruct action; try (left; now split);
      rerun_pass H1 H2; left; now rewrite H1, H2. }
  rewrite main_chat by lia.
  destruct action; try (left; now split).
  destruct (truthy (strip user_input)); [|left; now split].
  destruct (contains_crisis_keywords ul user_input) eqn:K.
  - rewrite send_message_crisis by assumption. rerun_pass H1 H2.
    left. now rewrite H1, H2.
  - rewrite send_message_sent
      by (try assumption; apply credits_not_exhausted; lia).
    destruct (secrets env).
    + right. eexists. cbn [snd log app].
      rewrite client_calls_effects, http_posts_effects.
      repeat split. right. now exists user_input.
    + rerun_pass H1 H2. right. eexists. rewrite H1, H2. cbn [app].
      rewrite client_calls_effects, http_posts_effects.
      repeat split. right. now exists user_input.
Qed.
End Traces.

(** X1. From any store, also one with keys missing, an interaction leaves
    no rerun pending and a store with every key present.  It completes (the
    run that sees the click, and the rerun it asks for) whenever the key
    lookup can read the secrets; the one way it ends in an exception is a
    click on Send while the secrets cannot be read, and the exception is
    then the one of the lookup. *)
Theorem X1_interaction_outcome
    (ul : pystr -> N -> pystr -> pystr) (env : Env) (action : Action)
    (s : SessionState) :
  (fst (interact ul env action s) = Val tt
   \/ exists e text,
        secrets env = SecretsMissing e /\ action = ClickSend text
        /\ fst (interact ul env action s) = Raise e)
  /\ (secrets_readable env -> fst (interact ul env action s) = Val tt)
  /\ ((forall text, action <> ClickSend text) ->
      fst (interact ul env action s) = Val tt)
  /\ populated (after ul env action s).
Proof.
  destruct (interact_transition ul env action s) as [H T].
  split; [exact H|]. split; [|split].
  - intros [key K]. destruct H as [H | (e & text & S & _)]; [exact H|].
    congruence.
  - intros N. destruct H as [H | (e & text & _ & A & _)]; [exact H|].
    now destruct (N text).
  - eapply transition_populated; [|exact T]. reflexivity.
Qed.

(** X2. An interaction enters the chat client at most once and sends at most
    one HTTP request; it does so only for a click on a topic or on Send, and
    without a configured key it sends no request at all. *)
Theorem X2_at_most_one_call
    (ul : pystr -> N -> pystr -> pystr) (env : Env) (action : Action)
    (s : SessionState) :
  let lg := log (snd (interact ul env action s)) in
  (List.length (client_calls lg) <= 1)%nat
  /\ (List.length (http_posts lg) <= List.length (client_calls lg))%nat
  /\ (client_calls lg <> [] ->
      (exists idx, action = ClickTopic idx) \/ (exists text, action = ClickSend text))
  /\ (truthy_key (found_key env) = false -> http_posts lg = []).
Proof.
  intros lg. destruct (interact_calls ul env action s) as [[H1 H2] | (m & H1 & H2 & H3)];
    fold lg in H1, H2; rewrite H1, H2.
  - cbn. repeat split; try lia. now intros [].
  - destruct (truthy_key (found_key env)); cbn; repeat split; try lia;
      try discriminate; now intros _.
Qed.

(** ** Whitespace at the ends of a text *)

Section Strip.

Lemma lstrip_suffix (s : pystr) :
  exists spaces, s = spaces ++ lstrip s /\ forallb isspace spaces = true.
Proof.
  induction s as [|c s (sp & E & H)].
  - now exists [].
  - cbn [lstrip]. destruct (isspace c) eqn:Ec.
    + exists (c :: sp). cbn. rewrite Ec, H. split; [now f_equal | reflexivity].
    + now exists [].
Qed.

Lemma lstrip_head (s : pystr) (c : N) (r : pystr) :
  lstrip s = c :: r -> isspace c = false.
Proof.
  induction s as [|d s IH]; [discriminate|].
  cbn [lstrip]. destruct (isspace d) eqn:Ed; [exact IH|].
  intros E. injection E as <- _. exact Ed.
Qed.

Lemma rstrip_prefix (s : pystr) :
  exists spaces, s = rstrip s ++ spaces /\ forallb isspace spaces = true.
Proof.
  unfold rstrip. destruct (lstrip_suffix (rev s)) as (sp & E & H).
  exists (rev sp). split.
  - rewrite <- rev_app_distr, <- E. now rewrite rev_involutive.
  - rewrite forallb_forall in H |- *. intros x Hx. apply H. now apply in_rev.
Qed.

Lemma rstrip_last (s r : pystr) (c : N) :
  rstrip s = r ++ [c] -> isspace c = false.
Proof.
  unfold rstrip. intros E.
  apply (f_equal (@rev N)) in E. rewrite rev_involutive, rev_unit in E.
  exact (lstrip_head _ E).
Qed.

(** A stripped text is the text without a run of whitespace at either end,
    and has whitespace at neither end. *)
Lemma strip_spec (s : pystr) :
  (exists lead trail,
      s = lead ++ strip s ++ trail
      /\ forallb isspace lead = true /\ forallb isspace trail = true)
  /\ (forall c r, strip s = c :: r -> isspace c = false)
  /\ (forall r c, strip s = r ++ [c] -> isspace c = false).
Proof.
  unfold strip. destruct (lstrip_suffix s) as (lead & E1 & H1).
  destruct (rstrip_prefix (lstrip s)) as (trail & E2 & H2).
  split; [|split].
  - exists lead, trail. split; [|now split]. now rewrite <- E2.
  - intros c r E. rewrite E in E2. cbn in E2. exact (lstrip_head _ E2).
  - intros r c. apply rstrip_last.
Qed.

Lemma strip_idempotent (s : pystr) : strip (strip s) = strip s.
Proof.
  destruct (strip_spec s) as (_ & Hh & Hl).
  assert (L : lstrip (strip s) = strip s).
  { destruct (strip s) as [|c r] eqn:E; [reflexivity|].
    cbn [lstrip]. now rewrite (Hh c r eq_refl). }
  unfold strip at 1. rewrite L. unfold rstrip.
  destruct (rev (strip s)) as [|c r] eqn:E.
  - apply (f_equal (@rev N)) in E. rewrite rev_involutive in E. now rewrite E.
  - assert (E' : strip s = rev r ++ [c]).
    { apply (f_equal (@rev N)) in E. now rewrite rev_involutive in E. }
    cbn [lstrip]. rewrite (Hl _ _ E'). cbn [rev]. now rewrite E'.
Qed.
End Strip.

(** ** Login *)

Section Login.
Variable ul : pystr -> N -> pystr -> pystr.

Lemma logged_out_full (s : SessionState) :
  logged_in (initialized s) = Some false ->
  exists u t c wc cu cm tw, initialized s = full false u t c wc cu cm tw.
Proof.
  unfold initialized. cbn [logged_in]. intros H. injection H as ->.
  now repeat eexists.
Qed.
End Login.

(** X3. On the login screen a blank username (empty, or whitespace only) is
    turned down: the interaction shows the warning, makes no rerun, calls
    nobody and leaves the session as initialization had it, still logged
    out. *)
Theorem X3_blank_login_rejected
    (ul : pystr -> N -> pystr -> pystr) (env : Env) (name : pystr)
    (s : SessionState) :
  logged_in (initialized s) = Some false ->
  truthy (strip name) = false ->
  run_script ul env (ClickLogin name) s
  = (Val tt,
     world (initialized s) [Warning (py "Please enter a valid username.")])
  /\ interact ul env (ClickLogin name) s = run_script ul env (ClickLogin name) s.
Proof.
  intros Hl Hn.
  assert (E : run_script ul env (ClickLogin name) s
              = (Val tt,
                 world (initialized s)
                       [Warning (py "Please enter a valid username.")])).
  { unfold run_script. rewrite main_initialized.
    destruct (logged_out_full Hl) as (u & t & c & wc & cu & cm & tw & ->).
    rewrite main_login, Hn. reflexivity. }
  split; [exact E|]. unfold interact. now rewrite E.
Qed.

(** X4. A login with a non-blank name stores the name stripped of the
    whitespace around it and sets [logged_in]; the stored name is not empty
    and has whitespace at neither end; nothing else in the session changes
    and the chat client is not called. *)
Theorem X4_login_stores_stripped_name
    (ul : pystr -> N -> pystr -> pystr) (env : Env) (name : pystr)
    (s : SessionState) :
  logged_in (initialized s) = Some false ->
  truthy (strip name) = true ->
  after ul env (ClickLogin name) s
  = set_logged_in (Some true) (set_username (Some (strip name)) (initialized s))
  /\ strip name <> []
  /\ (forall c r, strip name = c :: r -> isspace c = false)
  /\ (forall r c, strip name = r ++ [c] -> isspace c = false)
  /\ client_calls (log (snd (interact ul env (ClickLogin name) s))) = [].
Proof.
  intros Hl Hn.
  destruct (strip_spec name) as (_ & Hh & Ht).
  split; [|split; [|split; [|split]]]; try assumption.
  - unfold after. rewrite interact_initialized.
    destruct (logged_out_full Hl) as (u & t & c & wc & cu & cm & tw & ->).
    destruct (@interact_login ul env name u t c wc cu cm tw Hn) as (lg & ->).
    reflexivity.
  - intros E. now rewrite E in Hn.
  - destruct (interact_calls ul env (ClickLogin name) s)
      as [[H _] | (m & _ & _ & [[idx E] | [text E]])];
      [exact H | discriminate | discriminate].
Qed.

(** X5. While nobody is logged in, nothing but a login does anything: every
    other click leaves the initialized store as it is, shows nothing and
    calls nobody. *)
Theorem X5_logged_out_ignores_other_clicks
    (ul : pystr -> N -> pystr -> pystr) (env : Env) (action : Action)
    (s : SessionState) :
  logged_in (initialized s) = Some false ->
  (forall name, action <> ClickLogin name) ->
  interact ul env action s = (Val tt, world (initialized s) []).
Proof.
  intros Hl Ha. unfold interact, run_script. rewrite main_initialized.
  destruct (logged_out_full Hl) as (u & t & c & wc & cu & cm & tw & ->).
  now rewrite main_login_other.
Qed.

(** ** The chat screen: crisis mode, blank input, the way out *)

Section ChatScreen.
Variable ul : pystr -> N -> pystr -> pystr.

Lemma crisis_full (s : SessionState) :
  populated s -> on_chat_screen s -> crisis_mode s = Some true ->
  exists u t c wc cu tw, s = full true u (Some t) c wc cu true tw.
Proof.
  intros P (Hl & t & Ht) Hc.
  destruct (populated_full P) as (l & u & t' & c & wc & cu & cm & tw & ->).
  cbn in Hl, Ht, Hc. injection Hl as ->. injection Ht as ->. injection Hc as ->.
  now exists u, t, c, wc, cu, tw.
Qed.

Lemma interact_in_crisis (env : Env) (action : Action) (s : SessionState) :
  populated s -> on_chat_screen s -> crisis_mode s = Some true ->
  action <> ClickEndSession ->
  interact ul env action s = (Val tt, world s []).
Proof.
  intros P O C Ha.
  destruct (crisis_full P O C) as (u & t & c & wc & cu & tw & ->).
  unfold interact, run_script. rewrite main_crisis.
  destruct action; try reflexivity. now destruct Ha.
Qed.
End ChatScreen.

(** X6. Crisis mode holds until the session is ended: on the chat screen in
    crisis mode every click but End Session leaves the whole session as it
    is, shows no input and calls nobody, and so does any series of such
    clicks. *)
Theorem X6_crisis_mode_is_sticky
    (ul : pystr -> N -> pystr -> pystr) (s : SessionState) :
  populated s -> on_chat_screen s -> crisis_mode s = Some true ->
  (forall env action,
      action <> ClickEndSession ->
      interact ul env action s = (Val tt, world s []))
  /\ (forall steps,
         Forall (fun step => snd step <> ClickEndSession) steps ->
         interactions ul steps s = s).
Proof.
  intros P O C. split.
  - intros env action. now apply interact_in_crisis.
  - intros steps H. induction H as [|[env action] steps Ha _ IH]; [reflexivity|].
    cbn [interactions]. unfold after.
    rewrite (@interact_in_crisis ul env action s P O C Ha). exact IH.
Qed.

(** X7. Send with a blank message (empty, or whitespace only) does nothing:
    the session is unchanged, nothing joins the conversation, nothing is
    shown and nobody is called. *)
Theorem X7_blank_send_ignored
    (ul : pystr -> N -> pystr -> pystr) (env : Env) (text : pystr)
    (s : SessionState) :
  populated s -> chatting s -> truthy (strip text) = false ->
  interact ul env (ClickSend text) s = (Val tt, world s []).
Proof.
  intros P C Hb.
  destruct (chatting_full P C) as (u & t & c & wc & cu & tw & -> & Hw).
  unfold interact, run_script. rewrite main_chat by assumption.
  now rewrite Hb.
Qed.

(** X8. Ending the session wipes it, the ledger included: End Session in
    crisis mode, and Logout at the paywall, leave the store of a new
    session, logged out, with no topic, an empty conversation, the balance
    back at the free quota and no chat used. *)
Theorem X8_ending_the_session_resets_the_ledger
    (ul : pystr -> N -> pystr -> pystr) (env : Env) (s : SessionState) :
  populated s -> on_chat_screen s ->
  (crisis_mode s = Some true ->
   after ul env ClickEndSession s = fresh_state)
  /\ (forall wc,
         crisis_mode s = Some false -> wallet_credits s = Some wc -> (wc <= 0)%Z ->
         after ul env ClickLogout s = fresh_state)
  /\ wallet_credits fresh_state = Some FREE_CHAT_LIMIT
  /\ chats_used fresh_state = Some 0%Z
  /\ logged_in fresh_state = Some false
  /\ topic fresh_state = Some None
  /\ conversation fresh_state = Some [].
Proof.
  intros P O. split; [|split; [|now repeat split]].
  - intros C. destruct (crisis_full P O C) as (u & t & c & wc & cu & tw & ->).
    unfold after, interact, run_script. rewrite main_crisis.
    destruct (main_no_click ul env empty_state []) as (lg & -> & _). reflexivity.
  - intros wc C Hw Hle.
    destruct (chat_screen_full P O C) as (u & t & c & wc' & cu & tw & ->).
    cbn in Hw. injection Hw as ->.
    unfold after, interact, run_script. rewrite main_paywall by assumption.
    destruct (main_no_click ul env empty_state ([] ++ [no_credits_warning]))
      as (lg & -> & _).
    reflexivity.
Qed.

(** ** The chat screen, case by case *)

Section ChatCases.
Variable ul : pystr -> N -> pystr -> pystr.

Ltac rerun_pass H1 H2 :=
  match goal with
  | |- context [main ?u ?e NoClick (world ?s ?lg)] =>
      destruct (main_no_click u e s lg) as (? & -> & H1 & H2);
      unfold initialized;
      cbn [fst snd ss log or_default logged_in username topic
           conversation wallet_credits chats_used crisis_mode
           topic_welcome_shown]
  end.

(** What an interaction on the chat screen leaves, with the calls it made:
    the session as it was, a new session, the unanswered message of a crisis
    send, an answered send, one more credit, or the unanswered message of a
    send during which the key lookup raised. *)
Lemma interact_on_chat_screen (env : Env) (action : Action)
    (u t : pystr) c wc cu cm tw :
  let s := full true u (Some t) c wc cu cm tw in
  let s' := after ul env action s in
  let calls := client_calls (log (snd (interact ul env action s))) in
  (s' = s /\ calls = [])
  \/ (s' = fresh_state /\ calls = [])
  \/ (exists text,
         cm = false /\ (0 < wc)%Z /\ calls = []
         /\ s' = full true u (Some t) (c ++ [msg user (strip text)]) wc cu true tw)
  \/ (exists text,
         cm = false /\ (0 < wc)%Z /\ secrets_readable env
         /\ calls = [c ++ [msg user (strip text)]]
         /\ s' = full true u (Some t)
                      ((c ++ [msg user (strip text)])
                         ++ [msg assistant
                               (client_reply env (c ++ [msg user (strip text)]))])
                      (balance_after_chat cu wc) (cu + 1)%Z false tw)
  \/ (cm = false /\ (wc <= 0)%Z /\ calls = []
      /\ s' = full true u (Some t) c (wc + 1)%Z cu false tw)
  \/ (exists text e,
         cm = false /\ (0 < wc)%Z /\ secrets env = SecretsMissing e
         /\ calls = [c ++ [msg user (strip text)]]
         /\ s' = full true u (Some t) (c ++ [msg user (strip text)])
                      wc cu false tw).
Proof.
  intros s s' calls. subst s s' calls. unfold after, interact, run_script.
  destruct cm.
  { rewrite main_crisis.
    destruct action; try (left; now split).
    rerun_pass H1 H2. right. left. now rewrite H1. }
  destruct (Z_le_gt_dec wc 0) as [Hw|Hw].
  { rewrite main_paywall by assumption.
    destruct action; try (left; now split).
    - rerun_pass H1 H2. do 4 right. left. now rewrite H1.
    - rerun_pass H1 H2. right. left. now rewrite H1. }
  rewrite main_chat by lia.
  destruct action; try (left; now split).
  destruct (truthy (strip user_input)); [|left; now split].
  destruct (contains_crisis_keywords ul user_input) eqn:K.
  - rewrite send_message_crisis by assumption. rerun_pass H1 H2.
    right. right. left. exists user_input. rewrite H1.
    repeat split. lia.
  - rewrite send_message_sent
      by (try assumption; apply credits_not_exhausted; lia).
    destruct (secrets env) as [e|key] eqn:S.
    + do 5 right. exists user_input, e. cbn [fst snd ss log app].
      rewrite client_calls_effects. repeat split. lia.
    + rerun_pass H1 H2. do 3 right. left. exists user_input. rewrite H1.
      cbn [app]. rewrite client_calls_effects. repeat split; [lia|].
      now exists key.
Qed.

Lemma on_chat_screen_full (s : SessionState) :
  populated s -> on_chat_screen s ->
  exists u t c wc cu cm tw, s = full true u (Some t) c wc cu cm tw.
Proof.
  intros P (Hl & t & Ht).
  destruct (populated_full P) as (l & u & t' & c & wc & cu & cm & tw & ->).
  cbn in Hl, Ht. injection Hl as ->. injection Ht as ->.
  now exists u, t, c, wc, cu, cm, tw.
Qed.

Lemma balance_after_chat_le (cu wc : Z) :
  (0 <= wc)%Z -> (balance_after_chat cu wc <= wc)%Z.
Proof.
  intros H. unfold balance_after_chat.
  destruct (cu + 1 >? FREE_CHAT_LIMIT)%Z; lia.
Qed.

Lemma transition_balance_range (faulty : bool) (s s' : SessionState) :
  (exists wc, wallet_credits s = Some wc /\ (0 <= wc <= FREE_CHAT_LIMIT)%Z) ->
  transition faulty s s' ->
  exists wc, wallet_credits s' = Some wc /\ (0 <= wc <= FREE_CHAT_LIMIT)%Z.
Proof.
  intros (w & Hw & H) T.
  destruct T; cbn in Hw |- *; try injection Hw as <-;
    try (eexists; split; [reflexivity|]; unfold FREE_CHAT_LIMIT in *; lia).
  - now exists w.
  - exists (balance_after_chat cu wc). split; [reflexivity|].
    pose proof (@balance_after_chat_le cu wc).
    destruct (@balance_after_chat_bounds cu wc) as (B & _); lia.
Qed.

Lemma reachable_balance_range (s : SessionState) (wc : Z) :
  reachable ul s -> wallet_credits s = Some wc ->
  (0 <= wc <= FREE_CHAT_LIMIT)%Z.
Proof.
  intros R. revert wc.
  induction R as [|s env action R IH]; intros wc Hw; [discriminate|].
  assert (I : exists w, wallet_credits (initialized s) = Some w
                        /\ (0 <= w <= FREE_CHAT_LIMIT)%Z).
  { unfold initialized. cbn [wallet_credits].
    destruct (wallet_credits s) as [w|] eqn:E; cbn [or_default].
    - exists w. split; [reflexivity | now apply IH].
    - exists FREE_CHAT_LIMIT. split; [reflexivity | unfold FREE_CHAT_LIMIT; lia]. }
  destruct (transition_balance_range I (proj2 (interact_transition ul env action s)))
    as (w & Hw' & H).
  congruence.
Qed.
End ChatCases.

(** X9. The balance of a session stays between 0 and the free quota.  A
    credit can be earned only at the paywall: with credit left, Watch Ad is
    not on offer and does nothing; with none left it raises the balance by
    exactly one and changes nothing else. *)
Theorem X9_balance_within_quota (ul : pystr -> N -> pystr -> pystr) :
  (forall s wc,
      reachable ul s -> wallet_credits s = Some wc ->
      (0 <= wc <= FREE_CHAT_LIMIT)%Z)
  /\ (forall env s wc,
         populated s -> on_chat_screen s -> crisis_mode s = Some false ->
         wallet_credits s = Some wc -> (0 < wc)%Z ->
         interact ul env ClickWatchAd s = (Val tt, world s []))
  /\ (forall env s wc,
         populated s -> on_chat_screen s -> crisis_mode s = Some false ->
         wallet_credits s = Some wc -> (wc <= 0)%Z ->
         after ul env ClickWatchAd s = set_wallet_credits (Some (wc + 1)%Z) s
         /\ client_calls (log (snd (interact ul env ClickWatchAd s))) = []).
Proof.
  split; [|split].
  - intros s wc. apply reachable_balance_range.
  - intros env s wc P O C Hw Hpos.
    destruct (chat_screen_full P O C) as (u & t & c & wc' & cu & tw & ->).
    cbn in Hw. injection Hw as ->.
    unfold interact, run_script. now rewrite main_chat.
  - intros env s wc P O C Hw Hle.
    destruct (chat_screen_full P O C) as (u & t & c & wc' & cu & tw & ->).
    cbn in Hw. injection Hw as ->.
    unfold after, interact, run_script. rewrite main_paywall by assumption.
    destruct (main_no_click ul env (full true u (Some t) c (wc + 1)%Z cu false tw)
                ([] ++ [no_credits_warning; Sleep 3;
                        Success (py "1 chat credit added! You can now continue chatting.")]))
      as (lg & -> & H1 & _).
    split; [reflexivity | cbn [snd log]; now rewrite H1].
Qed.

(** X10. At the paywall one watched ad buys one answered message: with the
    balance at 0 and the free chats used up, Watch Ad followed by an ordinary
    send, made while the key lookup can read the secrets, leaves the message
    and its reply in the conversation, one more chat counted, and the balance
    at 0 again. *)
Theorem X10_one_ad_one_chat
    (ul : pystr -> N -> pystr -> pystr) (env1 env2 : Env) (text : pystr)
    (s : SessionState) (conv : list Message) (cu : Z) :
  populated s -> on_chat_screen s -> crisis_mode s = Some false ->
  wallet_credits s = Some 0%Z -> chats_used s = Some cu ->
  (FREE_CHAT_LIMIT <= cu)%Z ->
  conversation s = Some conv -> ordinary ul text ->
  secrets_readable env2 ->
  let sent := conv ++ [msg user (strip text)] in
  interactions ul [(env1, ClickWatchAd); (env2, ClickSend text)] s
  = set_chats_used (Some (cu + 1)%Z)
      (set_conversation
         (Some (sent ++ [msg assistant (client_reply env2 sent)])) s).
Proof.
  intros P O C Hw Hu Hq Hc Ho Hs sent.
  destruct (chat_screen_full P O C) as (u & t & c & wc & cu' & tw & ->).
  cbn in Hw, Hu, Hc. injection Hw as ->. injection Hu as ->. injection Hc as ->.
  cbn [interactions]. unfold after at 2. unfold interact, run_script.
  rewrite main_paywall by lia.
  destruct (main_no_click ul env1 (full true u (Some t) conv (0 + 1)%Z cu false tw)
              ([] ++ [no_credits_warning; Sleep 3;
                      Success (py "1 chat credit added! You can now continue chatting.")]))
    as (lg & -> & _).
  cbn [snd ss]. unfold initialized.
  cbn [or_default logged_in username topic conversation wallet_credits
       chats_used crisis_mode topic_welcome_shown].
  rewrite after_send_answered by (try assumption; lia).
  cbn. unfold balance_after_chat.
  assert ((cu + 1 >? FREE_CHAT_LIMIT)%Z = true) as -> by (apply Z.gtb_lt; lia).
  reflexivity.
Qed.

(** X11. On the chat screen an interaction either ends the session or keeps
    the login, the username and the topic, never lowers [chats_used], and
    only appends to the conversation, at most two entries: what was said
    stays said. *)
Theorem X11_conversation_is_append_only
    (ul : pystr -> N -> pystr -> pystr) (env : Env) (action : Action)
    (s : SessionState) (conv : list Message) (cu : Z) :
  populated s -> on_chat_screen s ->
  conversation s = Some conv -> chats_used s = Some cu ->
  after ul env action s = fresh_state
  \/ (logged_in (after ul env action s) = logged_in s
      /\ username (after ul env action s) = username s
      /\ topic (after ul env action s) = topic s
      /\ (exists cu', chats_used (after ul env action s) = Some cu' /\ (cu <= cu')%Z)
      /\ exists added,
           conversation (after ul env action s) = Some (conv ++ added)
           /\ (List.length added <= 2)%nat).
Proof.
  intros P O Hc Hu.
  destruct (on_chat_screen_full P O) as (u & t & c & wc & cu0 & cm & tw & ->).
  cbn in Hc, Hu. injection Hc as ->. injection Hu as ->.
  destruct (@interact_on_chat_screen ul env action u t conv wc cu cm tw)
    as [[E _] | [[E _] | [(x & _ & _ & _ & E) | [(x & _ & _ & _ & _ & E)
        | [(_ & _ & _ & E) | (x & e & _ & _ & _ & _ & E)]]]]];
    rewrite E. 2: now left. all: right;
    cbn; repeat split; try (exists cu; split; [reflexivity | lia]).
  - exists []. rewrite app_nil_r. split; [reflexivity | cbn; lia].
  - eexists. split; [reflexivity | cbn; lia].
  - exists (cu + 1)%Z. split; [reflexivity | lia].
  - exists [msg user (strip x); msg assistant (client_reply env (conv ++ [msg user (strip x)]))].
    rewrite <- app_assoc. split; [reflexivity | cbn; lia].
  - exists []. rewrite app_nil_r. split; [reflexivity | cbn; lia].
  - eexists. split; [reflexivity | cbn; lia].
Qed.

(** X12. The request of an answered send carries the whole conversation so
    far followed by the new user message, stripped: nothing of the history
    is left out or reordered, and in a session it opens with the system
    prompt. *)
Theorem X12_request_carries_the_history
    (ul : pystr -> N -> pystr -> pystr) (env : Env) (text : pystr)
    (s : SessionState) (conv : list Message) :
  populated s -> chatting s -> ordinary ul text ->
  conversation s = Some conv ->
  let lg := log (snd (interact ul env (ClickSend text) s)) in
  client_calls lg = [conv ++ [msg user (strip text)]]
  /\ http_posts lg
     = (if truthy_key (found_key env)
        then [conv ++ [msg user (strip text)]] else [])
  /\ (reachable ul s ->
      nth_error (conv ++ [msg user (strip text)]) 0 = Some system_message).
Proof.
  intros P C Ho Hc lg. subst lg.
  destruct (chatting_full P C) as (u & t & c & wc & cu & tw & -> & Hw).
  cbn in Hc. injection Hc as ->.
  destruct (@interact_send_calls ul env text u t conv wc cu tw Hw Ho)
    as (r & s' & lg & -> & H1 & H2).
  cbn [snd log]. split; [exact H1|]. split; [exact H2|].
  intros R. destruct (reachable_sound R) as [E | (_ & _ & F)]; [discriminate|].
  destruct (F t eq_refl) as (conv' & E & H0). cbn in E. injection E as <-.
  now apply nth_error_0_app.
Qed.

(** X13. On the chat screen, while the key lookup can read the secrets,
    [chats_used] counts the calls of the chat client: unless the session is
    ended, an interaction raises it by exactly the number of calls it made,
    so a crisis send, a blank send and a send at the paywall are not
    counted. *)
Theorem X13_chats_used_counts_calls
    (ul : pystr -> N -> pystr -> pystr) (env : Env) (action : Action)
    (s : SessionState) (cu : Z) :
  secrets_readable env ->
  populated s -> on_chat_screen s -> chats_used s = Some cu ->
  let calls := client_calls (log (snd (interact ul env action s))) in
  after ul env action s = fresh_state
  \/ chats_used (after ul env action s)
     = Some (cu + Z.of_nat (List.length calls))%Z.
Proof.
  intros [key K] P O Hu calls. subst calls.
  destruct (on_chat_screen_full P O) as (u & t & c & wc & cu0 & cm & tw & ->).
  cbn in Hu. injection Hu as ->.
  destruct (@interact_on_chat_screen ul env action u t c wc cu cm tw)
    as [[E H] | [[E H] | [(x & _ & _ & H & E) | [(x & _ & _ & _ & H & E)
        | [(_ & _ & H & E) | (x & e & _ & _ & S & _)]]]]];
    [| | | | | congruence];
    rewrite E, H; [right | now left | right | right | right];
    cbn; f_equal; lia.
Qed.

(** X14. Choosing a topic costs nothing: the balance, the count of chats
    and the username are as before, and the chat client is called exactly
    once, with the system prompt followed by the template of that topic as
    a user message. *)
Theorem X14_topic_choice_is_free
    (ul : pystr -> N -> pystr -> pystr) (env : Env) (idx : nat) (name : pystr)
    (s : SessionState) :
  logged_in (initialized s) = Some true -> topic (initialized s) = Some None ->
  nth_error topics idx = Some name ->
  let s' := after ul env (ClickTopic idx) s in
  wallet_credits s' = wallet_credits (initialized s)
  /\ chats_used s' = chats_used (initialized s)
  /\ username s' = username (initialized s)
  /\ exists prompt,
       dict_get TOPIC_PROMPT_TEMPLATES name = Some prompt
       /\ client_calls (log (snd (interact ul env (ClickTopic idx) s)))
          = [[msg system SYSTEM_PROMPT; msg user prompt]].
Proof.
  intros Hl Ht Hn s'. subst s'. unfold after. rewrite interact_initialized.
  revert Hl Ht. unfold initialized. cbn [logged_in topic].
  intros Hl Ht. injection Hl as ->. injection Ht as ->.
  destruct (@interact_topic ul env idx name (or_default (username s) [])
              (or_default (conversation s) [])
              (or_default (wallet_credits s) FREE_CHAT_LIMIT)
              (or_default (chats_used s) 0%Z)
              (or_default (crisis_mode s) false)
              (or_default (topic_welcome_shown s) false) Hn) as (lg & -> & H).
  cbn [snd ss log wallet_credits chats_used username].
  repeat split. exists (topic_prompt name). split.
  - apply topic_prompt_found. eapply nth_error_In, Hn.
  - exact H.
Qed.

(** ** The shape of the conversation in a session *)

Section Dialogue.
Variable ul : pystr -> N -> pystr -> pystr.

Lemma exchanges_app (a b : list Message) :
  exchanges a = true -> exchanges (a ++ b) = exchanges b.
Proof.
  remember (List.length a) as n eqn:L. revert a L.
  induction n as [n IH] using lt_wf_ind. intros a L H.
  destruct a as [|m1 [|m2 a]]; [reflexivity | discriminate |].
  cbn [exchanges app] in H |- *.
  destruct (role m1); try discriminate. destruct (role m2); try discriminate.
  apply (IH (List.length a)); [subst n; cbn; lia | reflexivity | exact H].
Qed.

Lemma transition_dialogue (s s' : SessionState) :
  dialogue s -> transition false s s' -> dialogue s'.
Proof.
  intros D T. destruct T; intros t' Ht'; cbn in Ht'; try discriminate;
    try exact (D t' Ht').
  - exists welcome, [], []. cbn. repeat split. now left.
  - destruct (D t eq_refl) as (w & body & tail & E & X & [[_ ->] | [C _]]);
      [|discriminate].
    cbn in E. injection E as ->. rewrite app_nil_r.
    exists w, body, [msg user text]. cbn. repeat split; [assumption|].
    right. split; [reflexivity | now exists text].
  - destruct (D t eq_refl) as (w & body & tail & E & X & [[_ ->] | [C _]]);
      [|discriminate].
    cbn in E. injection E as ->. rewrite app_nil_r.
    exists w, (body ++ [msg user text; msg assistant reply]), []. cbn.
    repeat split.
    + now rewrite !app_nil_r, <- !app_assoc.
    + now rewrite exchanges_app.
    + now left.
Qed.

Lemma reachable_dialogue (s : SessionState) :
  reachable_in ul secrets_readable s -> dialogue s.
Proof.
  induction 1 as [|s env action K R IH]; [intros t Ht; discriminate|].
  eapply transition_dialogue;
    [|rewrite <- (secrets_readable_not_missing K); apply interact_transition].
  intros t Ht. revert Ht. unfold initialized. cbn [topic]. intros Ht.
  destruct (topic s) as [[t0|]|] eqn:E; cbn in Ht; try discriminate.
  injection Ht as <-.
  destruct (IH t0 E) as (w & body & tail & Ec & X & Hc).
  exists w, body, tail. cbn [conversation crisis_mode]. rewrite Ec. cbn [or_default].
  split; [reflexivity|]. split; [exact X|].
  destruct Hc as [[C ->] | [C Hx]]; rewrite C; cbn [or_default]; [left | right]; now split.
Qed.

Lemma transition_ten_chats_first (faulty : bool) (s s' : SessionState) :
  ten_chats_first s -> transition faulty s s' -> ten_chats_first s'.
Proof.
  intros (w & k & Hw & Hk & H0 & H1 & H2 & H3) T.
  destruct T; cbn in Hw, Hk; try injection Hw as <-; try injection Hk as <-;
    try (now exists wc, cu).
  - now exists w, k.
  - exists (balance_after_chat cu wc), (cu + 1)%Z.
    split; [reflexivity|]. split; [reflexivity|].
    unfold balance_after_chat, FREE_CHAT_LIMIT in *.
    destruct (cu + 1 >? 5)%Z eqn:E.
    + apply Z.gtb_lt in E. repeat split; lia.
    + rewrite Z.gtb_ltb in E. apply Z.ltb_ge in E. repeat split; lia.
  - exists (wc + 1)%Z, cu. unfold FREE_CHAT_LIMIT in *. repeat split; lia.
  - exists FREE_CHAT_LIMIT, 0%Z. unfold FREE_CHAT_LIMIT. repeat split; lia.
Qed.

Lemma fresh_ten_chats_first : ten_chats_first fresh_state.
Proof.
  exists FREE_CHAT_LIMIT, 0%Z. unfold FREE_CHAT_LIMIT. cbn. repeat split; lia.
Qed.

Lemma reachable_ten_chats_first (s : SessionState) :
  reachable ul s -> s = empty_state \/ ten_chats_first s.
Proof.
  induction 1 as [|s env action R [-> | IH]]; [now left | |]; right.
  - eapply transition_ten_chats_first; [|apply interact_transition].
    exact fresh_ten_chats_first.
  - eapply transition_ten_chats_first; [|apply interact_transition].
    destruct (reachable_sound R) as [-> | (P & _)]; [exact fresh_ten_chats_first|].
    now rewrite P.
Qed.
End Dialogue.

(** X15. In every state a session reaches with a topic chosen, through
    interactions during each of which the key lookup could read the secrets,
    the conversation is the system prompt, the assistant's welcome, and then
    user messages each followed by its reply; out of crisis mode nothing is
    left unanswered, and in crisis mode exactly the last message is, the
    user's. *)
Theorem X15_no_message_left_unanswered
    (ul : pystr -> N -> pystr -> pystr) (s : SessionState) (t : pystr) :
  reachable_in ul secrets_readable s -> topic s = Some (Some t) ->
  exists welcome body tail,
    conversation s
    = Some (system_message :: msg assistant welcome :: body ++ tail)
    /\ exchanges body = true
    /\ ((crisis_mode s = Some false /\ tail = [])
        \/ (crisis_mode s = Some true /\ exists x, tail = [msg user x])).
Proof.
  intros R Ht. pose proof (reachable_dialogue R) as D. exact (D t Ht).
Qed.

(** X16. In a session the paywall cannot come before the tenth answered
    chat, whatever the path: through the free chats the balance is the full
    quota, afterwards it is at least what is left of ten, so a balance of 0
    means at least ten chats used. *)
Theorem X16_paywall_after_ten_chats
    (ul : pystr -> N -> pystr -> pystr) (s : SessionState) (wc cu : Z) :
  reachable ul s -> wallet_credits s = Some wc -> chats_used s = Some cu ->
  ((cu <= FREE_CHAT_LIMIT)%Z -> wc = FREE_CHAT_LIMIT)
  /\ ((FREE_CHAT_LIMIT < cu)%Z -> (10 - cu <= wc)%Z)
  /\ ((wc <= 0)%Z -> (10 <= cu)%Z)
  /\ (0 <= cu)%Z.
Proof.
  intros R Hw Hu. destruct (reachable_ten_chats_first R) as [-> | I];
    [discriminate|].
  destruct I as (w & k & Hw' & Hk' & H0 & H1 & H2 & H3).
  assert (w = wc) by congruence. assert (k = cu) by congruence. subst.
  unfold FREE_CHAT_LIMIT in *. repeat split; try assumption; lia.
Qed.

(** ** The chat client and the welcome message *)

(** X17. [openrouter_chat_api] never asks for a rerun, leaves the session
    state alone and only adds to the trace.  While the key lookup can read
    the secrets it never raises, whatever the exchange does: what it returns
    is the remote reply or one of its two fixed strings.  When the secrets
    cannot be read, the exception of the lookup leaves the client, before any
    request is sent and with nothing shown. *)
Theorem X17_client_outcome (env : Env) (messages : list Message) (w : World) :
  exists added,
    snd (openrouter_chat_api env messages w) = world (ss w) (log w ++ added)
    /\ client_calls added = [messages]
    /\ (secrets_readable env ->
        exists reply,
          fst (openrouter_chat_api env messages w) = Val reply
          /\ (reply = NO_KEY_REPLY \/ reply = API_FAILURE_REPLY
              \/ http env messages = HttpContent reply))
    /\ (forall e,
          secrets env = SecretsMissing e ->
          fst (openrouter_chat_api env messages w) = Raise e
          /\ added = [ClientCall messages]).
Proof.
  exists (client_effects env messages). rewrite openrouter_chat_api_run.
  split; [reflexivity|]. split; [apply client_calls_effects|].
  cbn [fst]. unfold client_result, client_effects. split.
  - intros [key K]. rewrite K. eexists. split; [reflexivity|].
    unfold client_reply.
    destruct (negb (truthy_key (found_key env))); [now left|].
    destruct (http env messages); [now right; right | now right; left].
  - intros e K. now rewrite K.
Qed.

(** X18. The key lookup raises when the secrets cannot be read.  Otherwise
    it returns [found_key]: the key is taken from the secrets when they hold
    a non-empty one, else from the session state; and when neither has a non-empty key (absent, or
    the empty string) the client sends no HTTP request: it shows the
    missing-key error and returns its missing-key string. *)
Theorem X18_no_key_no_request (env : Env) (messages : list Message) (w : World) :
  (forall e,
      secrets env = SecretsMissing e ->
      get_openrouter_api_key env w = (Raise e, w))
  /\ (secrets_readable env ->
      get_openrouter_api_key env w = (Val (found_key env), w))
  /\ (forall key,
         secrets env = SecretsFile key ->
         (truthy_key key = true ->
          get_openrouter_api_key env w = (Val key, w))
         /\ (truthy_key key = false ->
             get_openrouter_api_key env w = (Val (session_key env), w))
         /\ (truthy_key key = false ->
             truthy_key (session_key env) = false ->
             openrouter_chat_api env messages w
             = (Val NO_KEY_REPLY,
                world (ss w)
                      (log w ++
                       [ClientCall messages;
                        Error (py "OpenRouter API key not found. Please add it to your Streamlit secrets as OPENROUTER_API_KEY.")]))
             /\ http_posts (log (snd (openrouter_chat_api env messages w)))
                = http_posts (log w))).
Proof.
  split; [|split].
  - intros e K. rewrite get_openrouter_api_key_run. now rewrite K.
  - intros [key K]. rewrite get_openrouter_api_key_run. now rewrite K.
  - intros key K. rewrite get_openrouter_api_key_run. unfold found_key.
    rewrite K. split; [|split].
    + now intros ->.
    + now intros ->.
    + intros H1 H2.
      assert (E : truthy_key (found_key env) = false).
      { unfold found_key. now rewrite K, H1. }
      rewrite openrouter_chat_api_run.
      unfold client_result, client_reply, client_effects.
      rewrite K, E. cbn [negb snd log]. split; [reflexivity|].
      rewrite http_posts_app. cbn. apply app_nil_r.
Qed.

(** X19. With a key, the client sends exactly one request, carrying the
    messages it was given.  A reply comes back as it is, with no error
    shown; when the exchange raises, the text of the exception is shown in
    an error and the fixed apology is returned. *)
Theorem X19_client_with_key (env : Env) (messages : list Message) (w : World) :
  truthy_key (found_key env) = true ->
  (forall reply,
      http env messages = HttpContent reply ->
      openrouter_chat_api env messages w
      = (Val reply,
         world (ss w) (log w ++ [ClientCall messages; HttpPost messages])))
  /\ (forall e,
         http env messages = HttpRaises e ->
         openrouter_chat_api env messages w
         = (Val API_FAILURE_REPLY,
            world (ss w)
                  (log w ++
                   [ClientCall messages; HttpPost messages;
                    Error (py "Error communicating with OpenRouter API: " ++ e)]))).
Proof.
  intros K.
  assert (exists key, secrets env = SecretsFile key) as [key S].
  { unfold found_key in K. destruct (secrets env) as [e|key]; [discriminate|].
    now exists key. }
  split; intros x E; rewrite openrouter_chat_api_run;
    unfold client_result, client_reply, client_effects; now rewrite S, K, E.
Qed.

(** X20. For a name outside the table of templates [get_topic_welcome]
    returns the static welcome line and calls nobody.  For each of the five
    topics it calls the chat client with the system prompt and the topic's
    template and returns what the client returned, whatever that is; when
    the client raises, because the secrets cannot be read, it catches the
    exception and returns the static welcome line. *)
Theorem X20_welcome_for_unknown_topic (env : Env) (name : pystr) (w : World) :
  (dict_get TOPIC_PROMPT_TEMPLATES name = None ->
   get_topic_welcome env name w = (Val STATIC_WELCOME, w))
  /\ (In name topics ->
      exists prompt,
        dict_get TOPIC_PROMPT_TEMPLATES name = Some prompt
        /\ let request := [msg system SYSTEM_PROMPT; msg user prompt] in
           (secrets_readable env ->
            get_topic_welcome env name w = openrouter_chat_api env request w)
           /\ (forall e,
                  secrets env = SecretsMissing e ->
                  fst (openrouter_chat_api env request w) = Raise e
                  /\ get_topic_welcome env name w
                     = (Val STATIC_WELCOME,
                        snd (openrouter_chat_api env request w)))).
Proof.
  split.
  - intros H. unfold get_topic_welcome. now rewrite H.
  - intros H. exists (topic_prompt name).
    split; [now apply topic_prompt_found|].
    cbn zeta.
    rewrite (@get_topic_welcome_run env name (topic_prompt name) w)
      by now apply topic_prompt_found.
    rewrite openrouter_chat_api_run. unfold client_result. split.
    + intros [key K]. now rewrite K.
    + intros e K. now rewrite K.
Qed.

(** ** Initialization and reruns *)

(** X21. [initialize_session_state] fills in what is missing and overwrites
    nothing: it completes, leaves every key present, keeps the value of each
    key that was there, and changes nothing at all on a store that has every
    key; the trace is untouched. *)
Theorem X21_initialization_keeps_what_is_there (w : World) :
  exists s',
    initialize_session_state w = (Val tt, world s' (log w))
    /\ populated s'
    /\ (forall v, logged_in (ss w) = Some v -> logged_in s' = Some v)
    /\ (forall v, username (ss w) = Some v -> username s' = Some v)
    /\ (forall v, topic (ss w) = Some v -> topic s' = Some v)
    /\ (forall v, conversation (ss w) = Some v -> conversation s' = Some v)
    /\ (forall v, wallet_credits (ss w) = Some v -> wallet_credits s' = Some v)
    /\ (forall v, chats_used (ss w) = Some v -> chats_used s' = Some v)
    /\ (forall v, crisis_mode (ss w) = Some v -> crisis_mode s' = Some v)
    /\ (forall v, topic_welcome_shown (ss w) = Some v -> topic_welcome_shown s' = Some v)
    /\ (populated (ss w) -> s' = ss w).
Proof.
  exists (initialized (ss w)). split; [apply initialize_run|].
  split; [reflexivity|].
  unfold initialized; cbn;
    repeat split; try (intros v E; now rewrite E).
  intros P. exact P.
Qed.

(** X22. A run in which nothing is clicked only draws the page: on a store
    with every key present it completes and leaves the session exactly as
    it was, and it calls nobody. *)
Theorem X22_rerun_changes_nothing
    (ul : pystr -> N -> pystr -> pystr) (env : Env) (s : SessionState) :
  populated s ->
  after ul env NoClick s = s
  /\ fst (interact ul env NoClick s) = Val tt
  /\ client_calls (log (snd (interact ul env NoClick s))) = []
  /\ http_posts (log (snd (interact ul env NoClick s))) = [].
Proof.
  intros P. unfold after, interact, run_script.
  destruct (main_no_click ul env s []) as (lg & -> & H1 & H2).
  cbn. now rewrite P, H1, H2.
Qed.

(** ** The matcher and the stored message *)

Section StoredMessage.
Variable ul : pystr -> N -> pystr -> pystr.

Lemma space_is_not_a_letter (c : N) :
  isspace c = true -> ascii_lower c = c.
Proof.
  unfold isspace, ascii_lower. intros H.
  destruct ((65 <=? c) && (c <=? 90))%N eqn:E; [|reflexivity].
  apply andb_true_iff in E as [E1 E2]. apply N.leb_le in E1, E2.
  repeat (apply orb_true_iff in H as [H | H]);
    repeat match goal with
    | H : (_ && _)%bool = true |- _ => apply andb_true_iff in H as [? ?]
    | H : (_ <=? _)%N = true |- _ => apply N.leb_le in H
    | H : (_ =? _)%N = true |- _ => apply N.eqb_eq in H
    end; lia.
Qed.

(** The ends of every crisis term are no whitespace. *)
Lemma crisis_term_ends (k : pystr) :
  In k CRISIS_KEYWORDS ->
  exists a mid b, k = a :: mid ++ [b] /\ isspace a = false /\ isspace b = false.
Proof.
  intros H.
  repeat (destruct H as [<- | H];
          [eexists _, _, _; split;
           [ match goal with
             | |- ?l = _ =>
                 let v := eval vm_compute in l in
                 change l with v;
                 match v with
                 | ?a :: ?r =>
                     let r' := eval vm_compute in (removelast r) in
                     let b := eval vm_compute in (last r 0%N) in
                     instantiate (3 := a); instantiate (2 := r'); instantiate (1 := b)
                 end
             end; reflexivity
           | split; reflexivity ] | ]).
  destruct H.
Qed.

Lemma caseless_not_space (c k : N) :
  caseless_char c k -> ascii_lower k = k -> isspace k = false -> isspace c = false.
Proof.
  intros (_ & _ & E) Hk Hs. destruct (isspace c) eqn:Ec; [|reflexivity].
  rewrite (@space_is_not_a_letter c Ec), Hk in E. congruence.
Qed.

Lemma spaces_before (lead pre : pystr) (a : N) (r rest : pystr) :
  pre ++ a :: r = lead ++ rest ->
  forallb isspace lead = true -> isspace a = false ->
  exists p, pre = lead ++ p.
Proof.
  revert pre; induction lead as [|s lead IH]; intros pre E H Ha.
  - now exists pre.
  - cbn in H. apply andb_true_iff in H as [Hs H].
    destruct pre as [|x pre]; cbn in E; injection E as -> E.
    + congruence.
    + destruct (IH pre E H Ha) as [p ->]. now exists p.
Qed.

Lemma spaces_after (trail post : pystr) (b : N) (r rest : pystr) :
  (r ++ [b]) ++ post = rest ++ trail ->
  forallb isspace trail = true -> isspace b = false ->
  exists q, post = q ++ trail.
Proof.
  intros E H Hb. apply (f_equal (@rev N)) in E.
  rewrite !rev_app_distr in E. cbn [rev app] in E.
  destruct (@spaces_before (rev trail) (rev post) b (rev r) (rev rest)) as [p Ep].
  - exact E.
  - rewrite forallb_forall in H |- *. intros x Hx. apply H. now apply in_rev.
  - assumption.
  - exists (rev p). apply (f_equal (@rev N)) in Ep.
    now rewrite rev_involutive, rev_app_distr, rev_involutive in Ep.
Qed.

(** A crisis term occurs in a text exactly when it occurs in the stripped
    text. *)
Lemma occurs_caseless_strip (k text : pystr) :
  In k CRISIS_KEYWORDS ->
  occurs_caseless k text <-> occurs_caseless k (strip text).
Proof.
  intros Hin.
  destruct (strip_spec text) as ((lead & trail & E & Hl & Ht) & _).
  split.
  - intros (pre & w & post & Etext & Hw).
    destruct (@crisis_term_ends k Hin) as (a & mid & b & Ek & Ha & Hb).
    destruct (crisis_terms_plain Hin) as (_ & Hlow & _).
    assert (ascii_lower a = a /\ ascii_lower b = b) as [La Lb].
    { rewrite Ek in Hlow. change (a :: mid ++ [b]) with ((a :: mid) ++ [b]) in Hlow.
      rewrite map_app in Hlow. apply app_inj_tail in Hlow as [Hlow Lb].
      cbn in Hlow. injection Hlow as La _. now split. }
    assert (exists c w0 d,
               w = (c :: w0) ++ [d] /\ isspace c = false /\ isspace d = false)
      as (c & w0 & d & Ew & Hc & Hd).
    { rewrite Ek in Hw. change (a :: mid ++ [b]) with ((a :: mid) ++ [b]) in Hw.
      apply Forall2_app_inv_r in Hw as (wl & wd & F0 & Fd & ->).
      inversion F0 as [|c a' w0 mid' Hca _]; subst.
      inversion Fd as [|d b' ? ? Hdb Hnil]; subst. inversion Hnil; subst.
      exists c, w0, d. split; [reflexivity|]. split.
      - exact (caseless_not_space Hca La Ha).
      - exact (caseless_not_space Hdb Lb Hb). }
    remember (strip text) as m eqn:Em. clear Em.
    assert (Q : pre ++ c :: (w0 ++ [d]) ++ post = lead ++ (m ++ trail)).
    { rewrite <- E, Etext, Ew. reflexivity. }
    destruct (@spaces_before lead pre c _ _ Q Hl Hc) as [p ->].
    rewrite <- app_assoc in Q. apply app_inv_head in Q.
    assert (Q' : ((p ++ c :: w0) ++ [d]) ++ post = m ++ trail).
    { rewrite <- Q. now rewrite <- !app_assoc. }
    destruct (@spaces_after trail post d _ _ Q' Ht Hd) as [q ->].
    rewrite app_assoc in Q'. apply app_inv_tail in Q'.
    exists p, w, q. split; [|exact Hw].
    rewrite <- Q', Ew. now rewrite <- !app_assoc.
  - intros (pre & w & post & Es & Hw).
    exists (lead ++ pre), w, (post ++ trail). split; [|exact Hw].
    rewrite E at 1. rewrite Es. now rewrite <- !app_assoc.
Qed.
End StoredMessage.

(** X23. The matcher reads the raw input while the conversation keeps the
    stripped message; the two agree.  A crisis term in the input is found in
    the stripped message as well, and for input of ASCII code points the
    matcher gives the same answer on the input and on the message stored. *)
Theorem X23_stored_message_trips_alike
    (ul : pystr -> N -> pystr -> pystr) (text : pystr) :
  (forall k,
      In k CRISIS_KEYWORDS -> occurs_caseless k text ->
      contains_crisis_keywords ul text = true
      /\ contains_crisis_keywords ul (strip text) = true)
  /\ (forallb is_ascii text = true ->
      contains_crisis_keywords ul (strip text) = contains_crisis_keywords ul text).
Proof.
  split.
  - intros k Hin Hocc. split.
    + exact (caseless_occurrence_detected ul Hin Hocc).
    + apply (caseless_occurrence_detected ul Hin).
      exact (proj1 (@occurs_caseless_strip k text Hin) Hocc).
  - intros Hascii.
    assert (Hs : forallb is_ascii (strip text) = true).
    { destruct (strip_spec text) as ((lead & trail & E & _) & _).
      rewrite E in Hascii. apply forallb_app_inv in Hascii as [_ H].
      now apply forallb_app_inv in H as [H _]. }
    destruct (contains_crisis_keywords ul text) eqn:E1.
    + destruct (@apart_detection_has_occurrence ul text
                  (@ascii_lowers_apart ul text Hascii) E1) as (k & Hin & Hocc).
      apply (caseless_occurrence_detected ul Hin).
      exact (proj1 (@occurs_caseless_strip k text Hin) Hocc).
    + destruct (contains_crisis_keywords ul (strip text)) eqn:E2; [|reflexivity].
      destruct (@apart_detection_has_occurrence ul (strip text)
                  (@ascii_lowers_apart ul (strip text) Hs) E2) as (k & Hin & Hocc).
      apply (proj2 (@occurs_caseless_strip k text Hin)) in Hocc.
      rewrite (caseless_occurrence_detected ul Hin Hocc) in E1. discriminate.
Qed.

(** X24. On the topic screen only the five topic buttons do anything: any
    other click, and a topic index past the last button, leaves the
    initialized store as it is, shows nothing and calls nobody. *)
Theorem X24_topic_screen_ignores_other_clicks
    (ul : pystr -> N -> pystr -> pystr) (env : Env) (action : Action)
    (s : SessionState) :
  logged_in (initialized s) = Some true -> topic (initialized s) = Some None ->
  (forall idx, action = ClickTopic idx -> (5 <= idx)%nat) ->
  interact ul env action s = (Val tt, world (initialized s) []).
Proof.
  intros Hl Ht Ha. unfold interact, run_script. rewrite main_initialized.
  revert Hl Ht. unfold initialized. cbn [logged_in topic].
  intros Hl Ht. injection Hl as ->. injection Ht as ->.
  destruct action as [| |idx| | | |];
    try (now rewrite main_topic_other by discriminate).
  rewrite main_topic. specialize (Ha idx eq_refl).
  assert (nth_error topics idx = None) as ->; [|reflexivity].
  apply nth_error_None. cbn. exact Ha.
Qed.

(** ** Sends that meet unreadable secrets, and the refusal *)

(** X25. An ordinary send made while the secrets cannot be read ends in the
    exception of the key lookup, which nothing catches: the user message has
    been appended and stays unanswered, no chat is counted and no credit
    taken, the client was entered but sent no request, and no rerun
    follows. *)
Theorem X25_send_without_secrets
    (ul : pystr -> N -> pystr -> pystr) (env : Env) (e text : pystr)
    (s : SessionState) (conv : list Message) :
  secrets env = SecretsMissing e ->
  populated s -> chatting s -> ordinary ul text ->
  conversation s = Some conv ->
  let sent := conv ++ [msg user (strip text)] in
  interact ul env (ClickSend text) s
  = (Raise e, world (set_conversation (Some sent) s) [ClientCall sent]).
Proof.
  intros K P C Ho Hc sent. subst sent.
  destruct (chatting_full P C) as (u & t & c & wc & cu & tw & -> & Hw).
  cbn in Hc. injection Hc as ->.
  now rewrite interact_send_raises with (e := e).
Qed.

(** X26. The refusal of the send handler is never shown: no interaction,
    from any store and in any environment, leaves its warning in the trace.
    In a session the paywall comes first: in every reachable state on the
    chat screen, out of crisis mode, in which [can_chat] is false, a run of
    the script ends at the paywall notice with the session as it was. *)
Theorem X26_refusal_never_shown (ul : pystr -> N -> pystr -> pystr) :
  (forall env action s,
      ~ In refusal_warning (log (snd (interact ul env action s))))
  /\ (forall env s wc cu,
         reachable ul s -> on_chat_screen s -> crisis_mode s = Some false ->
         wallet_credits s = Some wc -> chats_used s = Some cu ->
         can_chat cu wc = false ->
         interact ul env NoClick s = (Val tt, world s [no_credits_warning])).
Proof.
  split; [apply interact_never_refuses|].
  intros env s wc cu R O C Hw Hu Hc.
  destruct (reachable_sound R) as [-> | (P & _)]; [discriminate|].
  destruct (chat_screen_full P O C) as (u & t & c & wc' & cu' & tw & ->).
  cbn in Hw, Hu. injection Hw as ->. injection Hu as ->.
  apply can_chat_false in Hc as [_ Hle].
  unfold interact, run_script. now rewrite main_paywall.
Qed.

(** ** The further properties on sample sessions *)

Lemma X2_calls_on_samples :
  http_posts (log (snd (interact keep_unicode env_no_key (ClickSend (py "hello"))
                          (chat_state 5 0)))) = []
  /\ ((exists idx, ClickSend (py "hello") = ClickTopic idx)
      \/ (exists text, ClickSend (py "hello") = ClickSend text)).
Proof.
  destruct (@X2_at_most_one_call keep_unicode env_no_key (ClickSend (py "hello"))
              (chat_state 5 0)) as (_ & _ & H & K).
  split.
  - apply K. reflexivity.
  - apply H. vm_compute. discriminate.
Defined.

Lemma X3_blank_login_on_sample :
  run_script keep_unicode env_no_key (ClickLogin (py "   ")) empty_state
  = (Val tt,
     world (initialized empty_state) [Warning (py "Please enter a valid username.")])
  /\ interact keep_unicode env_no_key (ClickLogin (py "   ")) empty_state
     = run_script keep_unicode env_no_key (ClickLogin (py "   ")) empty_state.
Proof.
  apply X3_blank_login_rejected; reflexivity.
Defined.

Lemma X4_login_on_sample :
  after keep_unicode env_no_key (ClickLogin (py "  Alex ")) empty_state
  = set_logged_in (Some true)
      (set_username (Some (strip (py "  Alex "))) (initialized empty_state))
  /\ strip (py "  Alex ") = py "Alex".
Proof.
  destruct (@X4_login_stores_stripped_name keep_unicode env_no_key
              (py "  Alex ") empty_state) as (H & _);
    [reflexivity | reflexivity |].
  split; [exact H | reflexivity].
Defined.

Lemma X5_logged_out_on_sample :
  interact keep_unicode (env_ok (py "I hear you.")) (ClickSend (py "hello")) empty_state
  = (Val tt, world (initialized empty_state) []).
Proof.
  apply X5_logged_out_ignores_other_clicks; [reflexivity | discriminate].
Defined.

Lemma X6_crisis_on_sample :
  interact keep_unicode (env_ok (py "I hear you.")) (ClickSend (py "hello")) crisis_state
  = (Val tt, world crisis_state [])
  /\ interactions keep_unicode
       [(env_no_key, ClickWatchAd); (env_no_key, ClickLogout);
        (env_ok (py "I hear you."), ClickSend (py "hello"))] crisis_state
     = crisis_state.
Proof.
  destruct (@X6_crisis_mode_is_sticky keep_unicode crisis_state) as (A & B).
  - reflexivity.
  - split; [reflexivity | eexists; reflexivity].
  - reflexivity.
  - split.
    + apply A. discriminate.
    + apply B. repeat (constructor; [discriminate|]). constructor.
Defined.

Lemma X7_blank_send_on_sample :
  interact keep_unicode (env_ok (py "I hear you.")) (ClickSend (py "  ")) (chat_state 5 0)
  = (Val tt, world (chat_state 5 0) []).
Proof.
  apply X7_blank_send_ignored.
  - reflexivity.
  - split; [reflexivity|]. split; [eexists; reflexivity|].
    split; [reflexivity|]. exists 5%Z. split; [reflexivity | lia].
  - reflexivity.
Defined.

Lemma X8_reset_on_samples :
  after keep_unicode env_no_key ClickEndSession crisis_state = fresh_state
  /\ after keep_unicode env_no_key ClickLogout (chat_state 0 10) = fresh_state.
Proof.
  split.
  - destruct (@X8_ending_the_session_resets_the_ledger keep_unicode env_no_key
                crisis_state) as (A & _).
    + reflexivity.
    + split; [reflexivity | eexists; reflexivity].
    + apply A. reflexivity.
  - destruct (@X8_ending_the_session_resets_the_ledger keep_unicode env_no_key
                (chat_state 0 10)) as (_ & B & _).
    + reflexivity.
    + split; [reflexivity | eexists; reflexivity].
    + apply (B 0%Z); [reflexivity | reflexivity | lia].
Defined.

Lemma X9_balance_on_samples :
  (0 <= 0 <= FREE_CHAT_LIMIT)%Z
  /\ interact keep_unicode env_no_key ClickWatchAd (chat_state 3 7)
     = (Val tt, world (chat_state 3 7) [])
  /\ after keep_unicode env_no_key ClickWatchAd (chat_state 0 10) = chat_state 1 10.
Proof.
  destruct (X9_balance_within_quota keep_unicode) as (A & B & C).
  split; [|split].
  - apply (A (alex_after 10) 0%Z).
    + apply interactions_reachable. constructor.
    + vm_compute. reflexivity.
  - apply (B env_no_key (chat_state 3 7) 3%Z).
    + reflexivity.
    + split; [reflexivity | eexists; reflexivity].
    + reflexivity.
    + reflexivity.
    + lia.
  - apply (C env_no_key (chat_state 0 10) 0%Z).
    + reflexivity.
    + split; [reflexivity | eexists; reflexivity].
    + reflexivity.
    + reflexivity.
    + lia.
Defined.

Lemma X10_ad_then_chat_on_sample :
  interactions keep_unicode
    [(env_no_key, ClickWatchAd); (env_ok (py "I hear you."), ClickSend (py "hello"))]
    (chat_state 0 10)
  = set_chats_used (Some (10 + 1)%Z)
      (set_conversation
         (Some (([system_message; msg assistant (py "Welcome.")]
                   ++ [msg user (strip (py "hello"))])
                  ++ [msg assistant
                        (client_reply (env_ok (py "I hear you."))
                           ([system_message; msg assistant (py "Welcome.")]
                              ++ [msg user (strip (py "hello"))]))]))
         (chat_state 0 10)).
Proof.
  apply (@X10_one_ad_one_chat keep_unicode env_no_key (env_ok (py "I hear you."))
           (py "hello") (chat_state 0 10)
           [system_message; msg assistant (py "Welcome.")] 10%Z).
  - reflexivity.
  - split; [reflexivity | eexists; reflexivity].
  - reflexivity.
  - reflexivity.
  - reflexivity.
  - unfold FREE_CHAT_LIMIT. lia.
  - reflexivity.
  - split; reflexivity.
  - eexists. reflexivity.
Defined.

Lemma X11_append_only_on_sample :
  after keep_unicode env_timeout (ClickSend (py "hello")) (chat_state 5 0) = fresh_state
  \/ (logged_in (after keep_unicode env_timeout (ClickSend (py "hello")) (chat_state 5 0))
      = logged_in (chat_state 5 0)
      /\ username (after keep_unicode env_timeout (ClickSend (py "hello")) (chat_state 5 0))
         = username (chat_state 5 0)
      /\ topic (after keep_unicode env_timeout (ClickSend (py "hello")) (chat_state 5 0))
         = topic (chat_state 5 0)
      /\ (exists cu',
             chats_used (after keep_unicode env_timeout (ClickSend (py "hello"))
                           (chat_state 5 0)) = Some cu' /\ (0 <= cu')%Z)
      /\ exists added,
           conversation (after keep_unicode env_timeout (ClickSend (py "hello"))
                           (chat_state 5 0))
           = Some ([system_message; msg assistant (py "Welcome.")] ++ added)
           /\ (List.length added <= 2)%nat).
Proof.
  apply X11_conversation_is_append_only.
  - reflexivity.
  - split; [reflexivity | eexists; reflexivity].
  - reflexivity.
  - reflexivity.
Defined.

Lemma X12_request_on_sample :
  client_calls (log (snd (interact keep_unicode (env_ok (py "I hear you."))
                            (ClickSend (py " hello ")) (alex_after 1))))
  = [or_default (conversation (alex_after 1)) [] ++ [msg user (py "hello")]]
  /\ nth_error (or_default (conversation (alex_after 1)) [] ++ [msg user (py "hello")]) 0
     = Some system_message.
Proof.
  destruct (@X12_request_carries_the_history keep_unicode (env_ok (py "I hear you."))
              (py " hello ") (alex_after 1)
              (or_default (conversation (alex_after 1)) [])) as (A & _ & C).
  - vm_compute. reflexivity.
  - split; [vm_compute; reflexivity|]. split; [eexists; vm_compute; reflexivity|].
    split; [vm_compute; reflexivity|]. exists 5%Z. split; [vm_compute; reflexivity | lia].
  - split; reflexivity.
  - vm_compute. reflexivity.
  - split.
    + exact A.
    + apply C. apply interactions_reachable. constructor.
Defined.

Lemma X13_count_on_sample :
  chats_used (after keep_unicode env_timeout (ClickSend (py "hello")) (chat_state 5 3))
  = Some 4%Z
  /\ client_calls
       (log (snd (interact keep_unicode env_timeout (ClickSend (py "hello"))
                    (chat_state 5 3))))
     = [[system_message; msg assistant (py "Welcome."); msg user (py "hello")]]
  /\ chats_used (after keep_unicode env_timeout (ClickSend (py "I want to die"))
                   (chat_state 5 3))
     = Some 3%Z.
Proof.
  assert (S : secrets_readable env_timeout) by (eexists; reflexivity).
  assert (O : on_chat_screen (chat_state 5 3))
    by (split; [reflexivity | eexists; reflexivity]).
  destruct (@X13_chats_used_counts_calls keep_unicode env_timeout
              (ClickSend (py "hello")) (chat_state 5 3) 3%Z S eq_refl O eq_refl)
    as [E | E]; [vm_compute in E; discriminate|].
  destruct (@X13_chats_used_counts_calls keep_unicode env_timeout
              (ClickSend (py "I want to die")) (chat_state 5 3) 3%Z S eq_refl O eq_refl)
    as [E' | E']; [vm_compute in E'; discriminate|].
  split; [|split].
  - rewrite E. reflexivity.
  - reflexivity.
  - rewrite E'. reflexivity.
Defined.

Lemma X14_topic_on_sample :
  wallet_credits (after keep_unicode env_timeout (ClickTopic 3) at_topic_screen)
  = Some 5%Z
  /\ chats_used (after keep_unicode env_timeout (ClickTopic 3) at_topic_screen)
     = Some 0%Z.
Proof.
  destruct (@X14_topic_choice_is_free keep_unicode env_timeout 3 (py "Stress")
              at_topic_screen) as (A & B & _); try reflexivity.
  split; [exact A | exact B].
Defined.

Lemma X15_dialogue_on_sample :
  exists welcome body tail,
    conversation (alex_after 3)
    = Some (system_message :: msg assistant welcome :: body ++ tail)
    /\ exchanges body = true
    /\ ((crisis_mode (alex_after 3) = Some false /\ tail = [])
        \/ (crisis_mode (alex_after 3) = Some true /\ exists x, tail = [msg user x])).
Proof.
  apply (@X15_no_message_left_unanswered keep_unicode (alex_after 3) (py "Anxiety")).
  - apply interactions_reachable_in; [|constructor].
    repeat (constructor; [eexists; reflexivity|]). constructor.
  - vm_compute. reflexivity.
Defined.

Lemma X16_paywall_on_sample :
  ((10 <= FREE_CHAT_LIMIT)%Z -> 0%Z = FREE_CHAT_LIMIT)
  /\ ((FREE_CHAT_LIMIT < 10)%Z -> (10 - 10 <= 0)%Z)
  /\ ((0 <= 0)%Z -> (10 <= 10)%Z)
  /\ (0 <= 10)%Z.
Proof.
  apply (@X16_paywall_after_ten_chats keep_unicode (alex_after 10) 0%Z 10%Z).
  - apply interactions_reachable. constructor.
  - vm_compute. reflexivity.
  - vm_compute. reflexivity.
Defined.

Lemma X18_empty_key_on_sample :
  get_openrouter_api_key env_empty_key (world fresh_state [])
  = (Val (session_key env_empty_key), world fresh_state [])
  /\ get_openrouter_api_key (env_ok (py "I hear you.")) (world fresh_state [])
     = (Val (Some (py "sk-test")), world fresh_state [])
  /\ get_openrouter_api_key env_no_secrets (world fresh_state [])
     = (Raise (py "No secrets found."), world fresh_state [])
  /\ openrouter_chat_api env_empty_key [system_message] (world fresh_state [])
     = (Val NO_KEY_REPLY,
        world fresh_state
              ([] ++
               [ClientCall [system_message];
                Error (py "OpenRouter API key not found. Please add it to your Streamlit secrets as OPENROUTER_API_KEY.")])).
Proof.
  destruct (X18_no_key_no_request env_empty_key [system_message] (world fresh_state []))
    as (_ & _ & F1).
  destruct (F1 (Some []) eq_refl) as (_ & B & C).
  destruct (X18_no_key_no_request (env_ok (py "I hear you.")) [system_message]
              (world fresh_state [])) as (_ & _ & F2).
  destruct (F2 (Some (py "sk-test")) eq_refl) as (A & _).
  destruct (X18_no_key_no_request env_no_secrets [system_message]
              (world fresh_state [])) as (R & _).
  split; [|split; [|split]].
  - apply B. reflexivity.
  - apply A. reflexivity.
  - apply R. reflexivity.
  - apply C; reflexivity.
Defined.

Lemma X19_client_on_samples :
  openrouter_chat_api (env_ok (py "I hear you.")) [system_message] (world fresh_state [])
  = (Val (py "I hear you."),
     world fresh_state ([] ++ [ClientCall [system_message]; HttpPost [system_message]]))
  /\ openrouter_chat_api env_timeout [system_message] (world fresh_state [])
     = (Val API_FAILURE_REPLY,
        world fresh_state
              ([] ++
               [ClientCall [system_message]; HttpPost [system_message];
                Error (py "Error communicating with OpenRouter API: " ++ py "Read timed out.")])).
Proof.
  split.
  - apply (@X19_client_with_key (env_ok (py "I hear you.")) [system_message]
             (world fresh_state [])); reflexivity.
  - apply (@X19_client_with_key env_timeout [system_message] (world fresh_state []));
      reflexivity.
Defined.

Lemma X20_welcome_on_samples :
  get_topic_welcome env_timeout (py "Sleep") (world fresh_state [])
  = (Val STATIC_WELCOME, world fresh_state [])
  /\ get_topic_welcome env_timeout (py "Stress") (world fresh_state [])
     = openrouter_chat_api env_timeout (welcome_request (py "Stress"))
         (world fresh_state [])
  /\ get_topic_welcome env_no_secrets (py "Stress") (world fresh_state [])
     = (Val STATIC_WELCOME,
        world fresh_state [ClientCall (welcome_request (py "Stress"))]).
Proof.
  assert (T : In (py "Stress") topics) by (vm_compute; tauto).
  destruct (X20_welcome_for_unknown_topic env_timeout (py "Sleep") (world fresh_state []))
    as (A & _).
  destruct (X20_welcome_for_unknown_topic env_timeout (py "Stress") (world fresh_state []))
    as (_ & B).
  destruct (X20_welcome_for_unknown_topic env_no_secrets (py "Stress")
              (world fresh_state [])) as (_ & C).
  destruct (B T) as (p1 & E1 & R1 & _). destruct (C T) as (p2 & E2 & _ & M2).
  assert (P1 : p1 = topic_prompt (py "Stress"))
    by (rewrite (topic_prompt_found T) in E1; now injection E1).
  assert (P2 : p2 = topic_prompt (py "Stress"))
    by (rewrite (topic_prompt_found T) in E2; now injection E2).
  subst p1 p2.
  split; [|split].
  - apply A. reflexivity.
  - apply R1. eexists. reflexivity.
  - destruct (M2 _ eq_refl) as (_ & ->). reflexivity.
Defined.

Lemma X21_initialization_on_sample :
  exists s',
    initialize_session_state (world partial_store []) = (Val tt, world s' [])
    /\ username s' = Some (py "Alex")
    /\ wallet_credits s' = Some 2%Z
    /\ chats_used s' = Some 0%Z.
Proof.
  destruct (X21_initialization_keeps_what_is_there (world partial_store []))
    as (s' & E & _ & _ & U & _ & _ & W & _).
  exists s'. split; [exact E|]. split; [|split].
  - apply U. reflexivity.
  - apply W. reflexivity.
  - cbn in E. injection E as <-. reflexivity.
Defined.

Lemma X22_rerun_on_sample :
  after keep_unicode env_timeout NoClick (chat_state 0 10) = chat_state 0 10
  /\ fst (interact keep_unicode env_timeout NoClick (chat_state 0 10)) = Val tt
  /\ client_calls (log (snd (interact keep_unicode env_timeout NoClick (chat_state 0 10)))) = []
  /\ http_posts (log (snd (interact keep_unicode env_timeout NoClick (chat_state 0 10)))) = [].
Proof.
  apply X22_rerun_changes_nothing. reflexivity.
Defined.

Lemma X23_stored_message_on_sample :
  contains_crisis_keywords keep_unicode (strip (py "  I want to DIE  ")) = true
  /\ contains_crisis_keywords keep_unicode (strip (py "  fine, thanks "))
     = contains_crisis_keywords keep_unicode (py "  fine, thanks ").
Proof.
  split.
  - apply (proj1 (X23_stored_message_trips_alike keep_unicode (py "  I want to DIE  "))
             (py "die")).
    + vm_compute. tauto.
    + exists (py "  I want to "), (py "DIE"), (py "  ").
      split; [reflexivity|].
      repeat (constructor; [repeat split; reflexivity|]). constructor.
  - apply X23_stored_message_trips_alike. reflexivity.
Defined.

Lemma X24_topic_screen_on_samples :
  interact keep_unicode env_timeout (ClickTopic 7) at_topic_screen
  = (Val tt, world (initialized at_topic_screen) [])
  /\ interact keep_unicode env_timeout (ClickSend (py "hello")) at_topic_screen
     = (Val tt, world (initialized at_topic_screen) []).
Proof.
  split; apply X24_topic_screen_ignores_other_clicks; try reflexivity.
  - intros idx E. injection E as <-. lia.
  - intros idx E. discriminate.
Defined.

Lemma X1_outcome_on_samples :
  fst (interact keep_unicode env_timeout (ClickSend (py "hello")) (chat_state 5 0))
  = Val tt
  /\ fst (interact keep_unicode env_no_secrets (ClickTopic 2) at_topic_screen) = Val tt
  /\ (exists e,
         fst (interact keep_unicode env_no_secrets (ClickSend (py "hello"))
                (chat_state 5 0)) = Raise e)
  /\ populated (after keep_unicode env_no_secrets (ClickSend (py "hello"))
                  (chat_state 5 0)).
Proof.
  destruct (@X1_interaction_outcome keep_unicode env_timeout (ClickSend (py "hello"))
              (chat_state 5 0)) as (_ & A & _).
  destruct (@X1_interaction_outcome keep_unicode env_no_secrets (ClickTopic 2)
              at_topic_screen) as (_ & _ & B & _).
  destruct (@X1_interaction_outcome keep_unicode env_no_secrets (ClickSend (py "hello"))
              (chat_state 5 0)) as (C & _ & _ & D).
  split; [|split; [|split]].
  - apply A. eexists. reflexivity.
  - apply B. discriminate.
  - destruct C as [C | (e & text & _ & _ & C)].
    + vm_compute in C. discriminate.
    + now exists e.
  - exact D.
Defined.

Lemma X17_client_on_samples :
  fst (openrouter_chat_api env_timeout [system_message] (world fresh_state []))
  = Val API_FAILURE_REPLY
  /\ openrouter_chat_api env_no_secrets [system_message] (world fresh_state [])
     = (Raise (py "No secrets found."),
        world fresh_state [ClientCall [system_message]]).
Proof.
  destruct (X17_client_outcome env_timeout [system_message] (world fresh_state []))
    as (a1 & _ & _ & V & _).
  destruct (X17_client_outcome env_no_secrets [system_message] (world fresh_state []))
    as (a2 & S & _ & _ & R).
  split.
  - destruct V as (reply & E & _); [eexists; reflexivity|].
    rewrite E. vm_compute in E. now injection E as <-.
  - destruct (R _ eq_refl) as (E & ->).
    destruct (openrouter_chat_api env_no_secrets [system_message] (world fresh_state []))
      as [r w']. cbn [fst snd] in E, S. now rewrite E, S.
Defined.

Lemma X25_send_without_secrets_on_sample :
  interact keep_unicode env_no_secrets (ClickSend (py " hello ")) (chat_state 5 7)
  = (Raise (py "No secrets found."),
     world (full true (py "Alex") (Some (py "Anxiety"))
                 [system_message; msg assistant (py "Welcome."); msg user (py "hello")]
                 5%Z 7%Z false true)
           [ClientCall [system_message; msg assistant (py "Welcome.");
                        msg user (py "hello")]]).
Proof.
  apply (@X25_send_without_secrets keep_unicode env_no_secrets (py "No secrets found.")
           (py " hello ") (chat_state 5 7)
           [system_message; msg assistant (py "Welcome.")]).
  - reflexivity.
  - reflexivity.
  - split; [reflexivity|]. split; [eexists; reflexivity|].
    split; [reflexivity|]. exists 5%Z. split; [reflexivity | lia].
  - split; reflexivity.
  - reflexivity.
Defined.

Lemma X26_paywall_on_sample :
  interact keep_unicode env_timeout NoClick (alex_after 10)
  = (Val tt, world (alex_after 10) [no_credits_warning]).
Proof.
  destruct (X26_refusal_never_shown keep_unicode) as (_ & P).
  apply (P env_timeout (alex_after 10) 0%Z 10%Z).
  - apply interactions_reachable. constructor.
  - split; [vm_compute; reflexivity | eexists; vm_compute; reflexivity].
  - vm_compute. reflexivity.
  - vm_compute. reflexivity.
  - vm_compute. reflexivity.
  - reflexivity.
Defined.
